(** * HydrologicalSimulator of data_processing_pipeline.py

    A shallow embedding of the four static methods of the class
    [HydrologicalSimulator] and the properties of its specification,
    followed by the computing methods of the class [FloodDataProcessor].

    Number model.  Python's [float] is idealised as a real number ([R]):
    every arithmetic operator is exact, so rounding, infinities and NaN
    are outside the model.  Python's [int] is [Z]; an [int] used where a
    [float] is expected is injected with [IZR].

    Effects.  A division raises [ZeroDivisionError] on a zero divisor and
    a power raises [OverflowError] when its result leaves the range of a
    double, so every [/] and [**] of the source goes through a fallible
    operator and the methods that use them return an [outcome].  The progression simulator
    draws from NumPy's process-wide generator; that generator is the
    state of a small state-and-error monad. *)

From stdpp Require Import gmap strings list sorting.
From Stdlib Require Import Reals Lra Lia.

Open Scope R_scope.

(** ** Python values and errors *)

(** [ZeroDivisionError], [TypeError] and [OverflowError] are Python's own.
    [InvalidInput] is the error kind named by the specification; no path
    of the source raises it. *)
Inductive exception : Type :=
  | ZeroDivisionError
  | TypeError
  | OverflowError
  | InvalidInput.

Inductive outcome (A : Type) : Type :=
  | Return (a : A)
  | Raise (e : exception).

Arguments Return {A} a.
Arguments Raise {A} e.

Definition obind {A B : Type} (o : outcome A) (k : A -> outcome B) : outcome B :=
  match o with
  | Return a => k a
  | Raise e => Raise e
  end.

Declare Scope outcome_scope.
Delimit Scope outcome_scope with outcome.
Notation "'let?' x ':=' o 'in' k" :=
  (obind o (fun x => k))
  (at level 10, x name, o at level 100, k at level 200,
   only parsing) : outcome_scope.

(** Comparisons of floats are decided; [decide] and [bool_decide] then
    read as the source's [if] conditions. *)
#[global] Instance Rlt_decision (x y : R) : Decision (x < y) := Rlt_dec x y.
#[global] Instance Rle_decision (x y : R) : Decision (x <= y) := Rle_dec x y.
#[global] Instance Rgt_decision (x y : R) : Decision (x > y) := Rgt_dec x y.
#[global] Instance Req_decision : EqDecision R := Req_dec_T.

(** [a / b] on floats. *)
Definition float_truediv (a b : R) : outcome R :=
  if decide (b = 0) then Raise ZeroDivisionError else Return (a / b).

(** [a / b] on ints: true division, the result is a float. *)
Definition int_truediv (a b : Z) : outcome R :=
  if decide (b = 0%Z) then Raise ZeroDivisionError else Return (IZR a / IZR b).

(** The range of a double: a result whose magnitude reaches
    [2^1024 - 2^970], half a unit in the last place above the largest
    double, does not round to a finite double.  Of the operators used by
    the source only [**] raises then ([OverflowError: (34, 'Numerical
    result out of range')]); [+], [-], [*] and [/] do not raise. *)
Definition float_overflow : R := IZR (2 ^ 1024 - 2 ^ 970).

(** [x ** y] on floats.  A positive base gives [exp (y * ln x)], or
    [OverflowError] when that is out of range; a zero base gives [0.0] for
    a positive exponent, [1.0] for a zero exponent and raises for a
    negative one.  For a negative base and the fractional exponent of the
    source Python produces a [complex], on which the [max(0, level)] that
    follows raises [TypeError]; the model raises it here. *)
Definition float_pow (x y : R) : outcome R :=
  if decide (0 < x) then
    (if decide (float_overflow <= Rpower x y) then Raise OverflowError
     else Return (Rpower x y))
  else if decide (x = 0) then
    (if decide (0 < y) then Return 0
     else if decide (y = 0) then Return 1
     else Raise ZeroDivisionError)
  else Raise TypeError.

(** [x ** n] on a float [x] with an int literal [n >= 0]: the power, or
    [OverflowError] when it is out of range. *)
Definition float_pow_int (x : R) (n : nat) : outcome R :=
  if decide (float_overflow <= Rabs (x ^ n)) then Raise OverflowError
  else Return (x ^ n).

(** [max(a, b)]: the first argument unless the second is greater. *)
Definition py_max (a b : R) : R := if decide (b > a) then b else a.

(** [range(n)] *)
Definition range (n : Z) : list Z := map Z.of_nat (seq 0 (Z.to_nat n)).

(** ** NumPy's process-wide generator

    The state of [np.random] is the stream of numbers its successive
    [random_sample()] calls will return (each in the half-open interval
    from 0 to 1) and the position reached in it.  Seeding fixes the
    stream and resets the position. *)
Record RandomState : Type := mkRandomState {
  samples : nat -> R;
  position : nat
}.

Definition seeded (stream : nat -> R) : RandomState :=
  {| samples := stream; position := 0 |}.

(** Code that reads and advances the generator and may raise. *)
Definition Py (A : Type) : Type := RandomState -> outcome A * RandomState.

Definition ret {A : Type} (a : A) : Py A := fun g => (Return a, g).

Definition bind {A B : Type} (m : Py A) (k : A -> Py B) : Py B :=
  fun g =>
    match m g with
    | (Return a, g') => k a g'
    | (Raise e, g') => (Raise e, g')
    end.

Definition lift {A : Type} (o : outcome A) : Py A := fun g => (o, g).

Declare Scope py_scope.
Delimit Scope py_scope with py.
Notation "'let*' x ':=' m 'in' k" :=
  (bind m (fun x => k))
  (at level 10, x name, m at level 100, k at level 200,
   only parsing) : py_scope.

Definition random_sample : Py R :=
  fun g =>
    (Return (samples g (position g)),
     {| samples := samples g; position := S (position g) |}).

(** [np.random.uniform(low, high)] is [low + (high - low) * random_sample()]. *)
Definition np_random_uniform (low high : R) : Py R :=
  (let* u := random_sample in
   ret (low + (high - low) * u))%py.

(** [for x in xs: acc = body(x, acc)] *)
Fixpoint for_each {A B : Type} (xs : list A) (body : A -> B -> Py B) (acc : B)
  : Py B :=
  match xs with
  | [] => ret acc
  | x :: rest => bind (body x acc) (for_each rest body)
  end.

(** ** The simulator *)

Module HydrologicalSimulator.

Local Open Scope outcome_scope.

(** *** calculate_runoff *)

(** The dict literal of the source. *)
Definition curve_numbers : gmap string Z :=
  {[ "high" := 85%Z; "medium" := 70%Z; "low" := 55%Z ]}.

Definition calculate_runoff (rainfall : R) (soil_type : string) : outcome R :=
  let cn := default 70%Z (curve_numbers !! soil_type) in
  let? q := int_truediv 25400 cn in
  let s := q - 254 in
  let ia := 0.2 * s in
  if decide (rainfall <= ia) then Return 0
  else
    let? square := float_pow_int (rainfall - ia) 2 in
    let? runoff := float_truediv square (rainfall - ia + s) in
    Return runoff.

(** *** calculate_water_level *)

Definition calculate_water_level (runoff : R) (area_km2 : R) : outcome R :=
  let volume_m3 := runoff * area_km2 * 1000 in
  let? avg_depth_m := float_truediv runoff 1000 in
  let terrain_factor := 1.5 in
  let adjusted_depth := avg_depth_m * terrain_factor in
  Return adjusted_depth.

(** *** classify_flood_risk *)

Definition classify_flood_risk (water_level rainfall : R) : string * Z :=
  if bool_decide (water_level > 4.0) || bool_decide (rainfall > 500) then ("EXTREME", 4%Z)
  else if bool_decide (water_level > 2.5) || bool_decide (rainfall > 350) then ("HIGH", 3%Z)
  else if bool_decide (water_level > 1.5) || bool_decide (rainfall > 200) then ("MEDIUM", 2%Z)
  else ("LOW", 1%Z).

(** *** simulate_flood_progression *)

Local Open Scope py_scope.

(** One turn of the loop: [water_levels] is the list built so far. *)
Definition progression_step (rainfall : R) (duration_hours : Z) (hour : Z)
    (water_levels : list R) : Py (list R) :=
  let* progress := lift (int_truediv hour duration_hours) in
  let peak_time := 0.7 in
  let* level :=
    (if decide (progress < peak_time) then
       let* scale := lift (float_truediv rainfall 100) in
       let* ratio := lift (float_truediv progress peak_time) in
       let* rise := lift (float_pow ratio 1.5) in
       ret (scale * rise)
     else
       let* recession_factor :=
         lift (float_truediv (progress - peak_time) (1 - peak_time)) in
       let* scale := lift (float_truediv rainfall 100) in
       let* fall := lift (float_pow_int (1 - recession_factor) 2) in
       ret (scale * fall)) in
  let* noise := np_random_uniform (-0.1) 0.1 in
  let level := level + level * noise in
  ret (water_levels ++ [py_max 0 level]).

Definition simulate_flood_progression (rainfall : R) (duration_hours : Z)
  : Py (list R) :=
  for_each (range (duration_hours + 1))
           (progression_step rainfall duration_hours) [].

End HydrologicalSimulator.

Import HydrologicalSimulator.

(** ** The SCS formula as the specification words it *)

(** The closed table of curve numbers, with the fallback to Medium. *)
Definition resolve_cn (soil_class : string) : Z :=
  if decide (soil_class = "high") then 85
  else if decide (soil_class = "medium") then 70
  else if decide (soil_class = "low") then 55
  else 70.

Definition retention (soil_class : string) : R :=
  25400 / IZR (resolve_cn soil_class) - 254.

Definition initial_abstraction (soil_class : string) : R :=
  0.2 * retention soil_class.

Definition scs_runoff (rainfall_mm : R) (soil_class : string) : R :=
  let S := retention soil_class in
  let Ia := initial_abstraction soil_class in
  if decide (rainfall_mm <= Ia) then 0
  else (rainfall_mm - Ia) ^ 2 / (rainfall_mm - Ia + S).

(** ** The progression curve as the specification words it *)

(** [x ^ y] for a base [x >= 0] and an exponent [y > 0]. *)
Definition real_pow (x y : R) : R :=
  if decide (0 < x) then Rpower x y else 0.

(** The level at hour [h] before the jitter: rising up to
    [peak_fraction = 0.7] of the window, receding after it. *)
Definition unperturbed_level (rainfall_mm : R) (duration_hours h : Z) : R :=
  let peak_fraction := 0.7 in
  let progress := IZR h / IZR duration_hours in
  if decide (progress < peak_fraction) then
    rainfall_mm / 100 * real_pow (progress / peak_fraction) 1.5
  else
    let recession := (progress - peak_fraction) / (1 - peak_fraction) in
    rainfall_mm / 100 * (1 - recession) ^ 2.

(** The value the [k]-th next call of [np.random.uniform(-0.1, 0.1)]
    returns from state [g], and the state after [n] calls. *)
Definition uniform_draw (g : RandomState) (k : nat) : R :=
  -0.1 + (0.1 - -0.1) * samples g (position g + k).

Definition advance (n : nat) (g : RandomState) : RandomState :=
  {| samples := samples g; position := position g + n |}.

(** The jittered and clamped levels of the given hours, one draw each. *)
Fixpoint progression_series (rainfall_mm : R) (duration_hours : Z)
    (hours : list Z) (g : RandomState) : list R :=
  match hours with
  | [] => []
  | h :: rest =>
      let level := unperturbed_level rainfall_mm duration_hours h in
      py_max 0 (level + level * uniform_draw g 0)
      :: progression_series rainfall_mm duration_hours rest (advance 1 g)
  end.

(** A stream whose first five samples are 0 and whose later ones are 0.5:
    the draws of [np.random.uniform(-0.1, 0.1)] are then -0.1 five times
    and 0 afterwards. *)
Definition low_then_middle (k : nat) : R :=
  if (k <? 5)%nat then 0 else 0.5.

(** ** The data processor

    The methods of [FloodDataProcessor] that compute on the processed
    records.  Reading the CSV file, building the records from the rows of
    the data frame, printing and writing JSON are not modelled; console
    output is left out of the methods that are.  A record of
    [processed_data] is a dict with the keys ['state'], ['district'],
    ['monthly'], ['annual'] and ['monsoon'] (and ['metrics'], which none of
    the methods below reads); the ['monthly'] dict keeps its insertion
    order, so it is the list of its items.

    A method raises when a NumPy reduction or [max] meets an empty
    sequence ([ValueError]); such a call is [None] here. *)

Module FloodDataProcessor.

(** *** Built-ins and NumPy reductions *)

(** [sorted] is a stable sort, so its result is fixed by the order used:
    [comes_first y x] says that [y] sorts strictly before [x].  Elements
    that are equal in the order keep their relative position. *)
Fixpoint insert_stable {A : Type} (comes_first : A -> A -> bool) (x : A)
    (l : list A) : list A :=
  match l with
  | [] => [x]
  | y :: rest =>
      if comes_first y x then y :: insert_stable comes_first x rest
      else x :: y :: rest
  end.

Definition py_sorted {A : Type} (comes_first : A -> A -> bool) (xs : list A)
  : list A :=
  foldr (insert_stable comes_first) [] xs.

(** [sorted(xs, key=key, reverse=True)] *)
Definition sorted_by_key_reverse {A : Type} (key : A -> R) (xs : list A)
  : list A :=
  py_sorted (fun y x => bool_decide (key y > key x)) xs.

(** [xs[:n]]: a negative [n] counts from the end. *)
Definition slice_to {A : Type} (n : Z) (xs : list A) : list A :=
  if decide (0 <= n)%Z then take (Z.to_nat n) xs
  else take (length xs - Z.to_nat (- n)) xs.

(** [max(xs, key=key)]: the first element whose key no other exceeds. *)
Fixpoint max_from {A : Type} (key : A -> R) (best : A) (xs : list A) : A :=
  match xs with
  | [] => best
  | x :: rest => max_from key (if decide (key x > key best) then x else best) rest
  end.

Definition py_max_key {A : Type} (key : A -> R) (xs : list A) : option A :=
  match xs with
  | [] => None
  | x :: rest => Some (max_from key x rest)
  end.

Definition np_sum (xs : list R) : R := foldr Rplus 0 xs.

(** [np.mean], [np.std] and [np.median] return nan for an empty sequence,
    which the number model does not have; every method below raises on the
    empty sequence in a neighbouring [np.max] or [np.min], so the value
    given here for it is never returned. *)
Definition np_mean (xs : list R) : R := np_sum xs / INR (length xs).

Definition np_std (xs : list R) : R :=
  sqrt (np_mean (map (fun x => (x - np_mean xs) ^ 2) xs)).

Definition np_median (xs : list R) : R :=
  let ordered := py_sorted (fun y x => bool_decide (y < x)) xs in
  let n := length ordered in
  if Nat.even n then
    (nth (n / 2 - 1) ordered 0 + nth (n / 2) ordered 0) / 2
  else nth (n / 2) ordered 0.

Definition np_max (xs : list R) : option R :=
  match xs with
  | [] => None
  | x :: rest => Some (foldl Rmax x rest)
  end.

Definition np_min (xs : list R) : option R :=
  match xs with
  | [] => None
  | x :: rest => Some (foldl Rmin x rest)
  end.

(** *** Records *)

Record DistrictData : Type := mkDistrictData {
  state : string;
  district : string;
  monthly : list (string * R);
  annual : R;
  monsoon : R
}.

(** The dict returned by [calculate_district_metrics]. *)
Record Metrics : Type := mkMetrics {
  avg_monthly : R;
  max_monthly : R;
  min_monthly : R;
  std_monthly : R;
  monsoon_percentage : R;
  peak_month : string
}.

(** An entry of [get_top_districts]: keys ['district'], ['state'] and
    ['annual_rainfall']. *)
Record TopDistrict : Type := mkTopDistrict {
  top_district : string;
  top_state : string;
  top_annual_rainfall : R
}.

(** An entry of [identify_high_risk_districts]: keys ['district'],
    ['state'], ['annual_rainfall'] and ['monsoon_rainfall']. *)
Record HighRiskDistrict : Type := mkHighRiskDistrict {
  risk_district : string;
  risk_state : string;
  risk_annual_rainfall : R;
  risk_monsoon_rainfall : R
}.

(** One block of ['rainfall_statistics']. *)
Record Statistics : Type := mkStatistics {
  stat_mean : R;
  stat_median : R;
  stat_min : R;
  stat_max : R;
  stat_std : R
}.

Record Report : Type := mkReport {
  total_districts : Z;
  total_states : Z;
  states : list string;
  annual_statistics : Statistics;
  monsoon_statistics : Statistics;
  top_rainfall_districts : list TopDistrict;
  high_risk_districts : list HighRiskDistrict
}.

(** *** validate_data *)

Definition required_columns : list string :=
  [ "STATE_UT_NAME"; "DISTRICT"; "JAN"; "FEB"; "MAR"; "APR";
    "MAY"; "JUN"; "JUL"; "AUG"; "SEP"; "OCT"; "NOV"; "DEC"; "ANNUAL" ].

(** [columns] is [self.df.columns]. *)
Definition validate_data (columns : list string) : bool :=
  let missing := filter (fun col => col ∉ columns) required_columns in
  match missing with
  | [] => true
  | _ :: _ => false
  end.

(** *** calculate_district_metrics *)

Definition calculate_district_metrics (d : DistrictData) : option Metrics :=
  let monthly_values := map snd (monthly d) in
  let avg := np_mean monthly_values in
  highest ← np_max monthly_values;
  lowest ← np_min monthly_values;
  let std := np_std monthly_values in
  percentage ←
    (if decide (annual d > 0) then
       match float_truediv (monsoon d) (annual d) with
       | Return share => Some (share * 100)
       | Raise _ => None
       end
     else Some 0);
  peak ← py_max_key snd (monthly d);
  Some {| avg_monthly := avg;
          max_monthly := highest;
          min_monthly := lowest;
          std_monthly := std;
          monsoon_percentage := percentage;
          peak_month := fst peak |}.

(** *** get_top_districts *)

Definition get_top_districts (processed_data : list DistrictData) (n : Z)
  : list TopDistrict :=
  let sorted_districts := sorted_by_key_reverse annual processed_data in
  map (fun d => {| top_district := district d;
                   top_state := state d;
                   top_annual_rainfall := annual d |})
      (slice_to n sorted_districts).

(** *** identify_high_risk_districts *)

Definition identify_high_risk_districts (processed_data : list DistrictData)
    (threshold : R) : list HighRiskDistrict :=
  let high_risk :=
    map (fun d => {| risk_district := district d;
                     risk_state := state d;
                     risk_annual_rainfall := annual d;
                     risk_monsoon_rainfall := monsoon d |})
        (filter (fun d => annual d > threshold) processed_data) in
  sorted_by_key_reverse risk_annual_rainfall high_risk.

(** *** generate_summary_report *)

Definition statistics (values : list R) : option Statistics :=
  let mean := np_mean values in
  let median := np_median values in
  lowest ← np_min values;
  highest ← np_max values;
  Some {| stat_mean := mean;
          stat_median := median;
          stat_min := lowest;
          stat_max := highest;
          stat_std := np_std values |}.

(** [list(set(...))] lists the distinct states in an order that Python
    leaves open; only its length and its sorted form are used.  A [str] is
    the string of its UTF-8 bytes, on which the lexicographic order
    [String.ltb] is Python's order of code points. *)
Definition generate_summary_report (processed_data : list DistrictData)
  : option Report :=
  let distinct_states :=
    elements (list_to_set (map state processed_data) : gset string) in
  let annual_rainfall := map annual processed_data in
  let monsoon_rainfall := map monsoon processed_data in
  annual_block ← statistics annual_rainfall;
  monsoon_block ← statistics monsoon_rainfall;
  Some {| total_districts := Z.of_nat (length processed_data);
          total_states := Z.of_nat (length distinct_states);
          states := py_sorted String.ltb distinct_states;
          annual_statistics := annual_block;
          monsoon_statistics := monsoon_block;
          top_rainfall_districts := get_top_districts processed_data 5;
          high_risk_districts :=
            identify_high_risk_districts processed_data 3000 |}.

End FloodDataProcessor.

(** Sample records, used to instantiate the theorems below. *)
Definition idukki : FloodDataProcessor.DistrictData :=
  FloodDataProcessor.mkDistrictData "KERALA" "IDUKKI"
    [ ("January", 14); ("February", 22); ("March", 42); ("April", 140);
      ("May", 218); ("June", 700); ("July", 850); ("August", 520);
      ("September", 290); ("October", 340); ("November", 170);
      ("December", 46) ]
    3352 2360.

Definition jaisalmer : FloodDataProcessor.DistrictData :=
  FloodDataProcessor.mkDistrictData "RAJASTHAN" "JAISALMER"
    [ ("January", 2); ("February", 2); ("March", 3); ("April", 3);
      ("May", 6); ("June", 17); ("July", 60); ("August", 62);
      ("September", 22); ("October", 2); ("November", 1);
      ("December", 2) ]
    182 161.

Definition wayanad : FloodDataProcessor.DistrictData :=
  FloodDataProcessor.mkDistrictData "KERALA" "WAYANAD"
    [ ("January", 5); ("February", 10); ("March", 25); ("April", 100);
      ("May", 160); ("June", 780); ("July", 1100); ("August", 600);
      ("September", 250); ("October", 230); ("November", 100);
      ("December", 20) ]
    3380 2730.

Definition sample_data : list FloodDataProcessor.DistrictData :=
  [idukki; jaisalmer; wayanad].


(** ** Lemmas on the fallible operators *)

Lemma float_truediv_nonzero (a b : R) :
  b <> 0 -> float_truediv a b = Return (a / b).
Proof.
  intros Hb. unfold float_truediv. destruct (decide (b = 0)); congruence.
Qed.

Lemma float_truediv_zero (a : R) : float_truediv a 0 = Raise ZeroDivisionError.
Proof.
  unfold float_truediv. destruct (decide (0 = 0)); congruence.
Qed.

Lemma int_truediv_nonzero (a b : Z) :
  b <> 0%Z -> int_truediv a b = Return (IZR a / IZR b).
Proof.
  intros Hb. unfold int_truediv. destruct (decide (b = 0%Z)); congruence.
Qed.

Lemma int_truediv_zero (a : Z) : int_truediv a 0 = Raise ZeroDivisionError.
Proof. reflexivity. Qed.

(** *** The range of a double *)

Lemma float_overflow_above_1 : 1 < float_overflow.
Proof. unfold float_overflow. apply (IZR_lt 1). reflexivity. Qed.

(** Magnitudes up to [10^154] have their square in range, magnitudes from
    [2^512] on do not. *)
Lemma square_in_range (x : R) :
  Rabs x <= IZR (10 ^ 154) -> x ^ 2 < float_overflow.
Proof.
  intros Hx.
  assert (IZR (10 ^ 154) * IZR (10 ^ 154) < float_overflow) as Hbound.
  { unfold float_overflow. rewrite <- mult_IZR. apply IZR_lt. reflexivity. }
  assert (0 <= IZR (10 ^ 154)) as Hpos by (apply (IZR_le 0); discriminate).
  set (bound := IZR (10 ^ 154)) in *.
  replace (x ^ 2) with (Rabs x * Rabs x)
    by (rewrite <- Rabs_mult, Rabs_pos_eq; nra).
  pose proof (Rabs_pos x).
  apply Rle_lt_trans with (bound * bound); [| exact Hbound].
  apply Rmult_le_compat; assumption.
Qed.

Lemma square_out_of_range (x : R) :
  IZR (2 ^ 512) <= x -> float_overflow <= x ^ 2.
Proof.
  intros Hx.
  assert (float_overflow <= IZR (2 ^ 512) * IZR (2 ^ 512)) as Hbound.
  { unfold float_overflow. rewrite <- mult_IZR. apply IZR_le. discriminate. }
  assert (0 <= IZR (2 ^ 512)) as Hpos by (apply (IZR_le 0); discriminate).
  set (bound := IZR (2 ^ 512)) in *.
  apply Rle_trans with (bound * bound); [exact Hbound |].
  replace (x ^ 2) with (x * x) by ring.
  apply Rmult_le_compat; assumption.
Qed.

Lemma float_pow_int_in_range (x : R) (n : nat) :
  Rabs (x ^ n) < float_overflow -> float_pow_int x n = Return (x ^ n).
Proof.
  intros Hx. unfold float_pow_int. case_decide; [exfalso; lra | reflexivity].
Qed.

Lemma float_pow_int_out_of_range (x : R) (n : nat) :
  float_overflow <= Rabs (x ^ n) -> float_pow_int x n = Raise OverflowError.
Proof.
  intros Hx. unfold float_pow_int. case_decide; [reflexivity | exfalso; lra].
Qed.

Lemma Rabs_square (x : R) : Rabs (x ^ 2) = x ^ 2.
Proof. apply Rabs_pos_eq. nra. Qed.

Lemma float_pow_int_square_unit (x : R) :
  0 <= x <= 1 -> float_pow_int x 2 = Return (x ^ 2).
Proof.
  intros Hx. apply float_pow_int_in_range. rewrite Rabs_square.
  pose proof float_overflow_above_1. nra.
Qed.

(** ** The curve-number table *)

Lemma curve_numbers_get (soil_type : string) :
  default 70%Z (curve_numbers !! soil_type) = resolve_cn soil_type.
Proof.
  unfold resolve_cn, curve_numbers.
  repeat case_decide; subst; try reflexivity.
  rewrite !lookup_insert_ne by congruence.
  rewrite lookup_singleton_ne by congruence.
  reflexivity.
Qed.

Lemma resolve_cn_cases (soil_class : string) :
  resolve_cn soil_class = 85%Z \/ resolve_cn soil_class = 70%Z
  \/ resolve_cn soil_class = 55%Z.
Proof. unfold resolve_cn. repeat case_decide; auto. Qed.

Lemma retention_pos (soil_class : string) : 0 < retention soil_class.
Proof.
  unfold retention.
  destruct (resolve_cn_cases soil_class) as [-> | [-> | ->]]; lra.
Qed.

Lemma initial_abstraction_pos (soil_class : string) :
  0 < initial_abstraction soil_class.
Proof. unfold initial_abstraction. pose proof (retention_pos soil_class). lra. Qed.

Lemma initial_abstraction_small (soil_class : string) :
  initial_abstraction soil_class < 100.
Proof.
  unfold initial_abstraction, retention.
  destruct (resolve_cn_cases soil_class) as [-> | [-> | ->]]; lra.
Qed.

(** Where the square is in range the method computes the specification's
    formula, and it never divides by zero; where the square is out of
    range it raises. *)
Lemma calculate_runoff_scs (rainfall : R) (soil_type : string) :
  rainfall <= initial_abstraction soil_type \/
  (rainfall - initial_abstraction soil_type) ^ 2 < float_overflow ->
  calculate_runoff rainfall soil_type = Return (scs_runoff rainfall soil_type).
Proof.
  intros Hrange. unfold calculate_runoff, scs_runoff.
  unfold initial_abstraction in *.
  rewrite curve_numbers_get.
  pose proof (retention_pos soil_type) as HS. unfold retention in *.
  rewrite int_truediv_nonzero
    by (destruct (resolve_cn_cases soil_type) as [-> | [-> | ->]]; lia).
  cbn [obind].
  case_decide as Hle; [reflexivity |].
  destruct Hrange as [Hbelow | Hsquare]; [exfalso; lra |].
  rewrite float_pow_int_in_range by (rewrite Rabs_square; exact Hsquare).
  cbn [obind]. rewrite float_truediv_nonzero by lra.
  reflexivity.
Qed.

(** Comparison of two integer constants injected into the reals. *)
Ltac constants_le :=
  apply IZR_le; vm_compute; let H := fresh in intro H; discriminate H.

Lemma rainfall_10_200_out_of_range (soil_class : string) :
  initial_abstraction soil_class < IZR (10 ^ 200) /\
  float_overflow <= (IZR (10 ^ 200) - initial_abstraction soil_class) ^ 2.
Proof.
  pose proof (initial_abstraction_small soil_class) as Hsmall.
  assert (IZR (2 ^ 512) + 100 <= IZR (10 ^ 200)) as Hhuge
    by (rewrite <- (plus_IZR _ 100); constants_le).
  generalize dependent (IZR (10 ^ 200)). intros huge Hhuge.
  assert (0 <= IZR (2 ^ 512)) as Hbig by constants_le.
  split; [lra |].
  apply square_out_of_range. lra.
Qed.

Lemma calculate_runoff_overflow (rainfall : R) (soil_type : string) :
  initial_abstraction soil_type < rainfall ->
  float_overflow <= (rainfall - initial_abstraction soil_type) ^ 2 ->
  calculate_runoff rainfall soil_type = Raise OverflowError.
Proof.
  intros Habove Hsquare. unfold calculate_runoff.
  unfold initial_abstraction, retention in *.
  rewrite curve_numbers_get.
  rewrite int_truediv_nonzero
    by (destruct (resolve_cn_cases soil_type) as [-> | [-> | ->]]; lia).
  cbn [obind].
  case_decide as Hle; [exfalso; lra |].
  rewrite float_pow_int_out_of_range by (rewrite Rabs_square; exact Hsquare).
  reflexivity.
Qed.

(** Any rainfall up to [10^154] mm is in range; the exact bound is about
    [1.34e154]. *)
Lemma modest_rainfall_in_range (rainfall : R) (soil_class : string) :
  rainfall <= IZR (10 ^ 154) ->
  rainfall <= initial_abstraction soil_class \/
  (rainfall - initial_abstraction soil_class) ^ 2 < float_overflow.
Proof.
  intros Hmodest.
  destruct (Rle_or_lt rainfall (initial_abstraction soil_class)) as [Hle | Hgt];
    [left; exact Hle | right].
  pose proof (initial_abstraction_pos soil_class).
  apply square_in_range.
  generalize dependent (IZR (10 ^ 154)). intros bound Hmodest.
  rewrite Rabs_pos_eq; lra.
Qed.

Lemma rainfall_450_in_range (soil_class : string) :
  (450 - initial_abstraction soil_class) ^ 2 < float_overflow.
Proof.
  pose proof (initial_abstraction_pos soil_class).
  pose proof (initial_abstraction_small soil_class).
  assert (450 <= IZR (10 ^ 154)) as Hmodest by constants_le.
  apply square_in_range.
  generalize dependent (IZR (10 ^ 154)). intros bound Hmodest.
  rewrite Rabs_pos_eq; lra.
Qed.

Lemma in_range_below_abstraction (rainfall : R) (soil_class : string) :
  0 <= rainfall ->
  float_overflow <= (rainfall - initial_abstraction soil_class) ^ 2 ->
  initial_abstraction soil_class < rainfall.
Proof.
  intros Hr Hsquare.
  destruct (Rle_or_lt rainfall (initial_abstraction soil_class)) as [Hle | Hgt];
    [exfalso | exact Hgt].
  pose proof (initial_abstraction_small soil_class) as Hsmall.
  assert ((rainfall - initial_abstraction soil_class) ^ 2 < float_overflow);
    [| lra].
  apply square_in_range.
  assert (100 <= IZR (10 ^ 154)) as Hbound by constants_le.
  generalize dependent (IZR (10 ^ 154)). intros bound Hbound.
  rewrite Rabs_left1 by lra. lra.
Qed.

(** ** Bounds on the SCS formula *)

Lemma Rdiv_le_cross (a b c d : R) :
  0 < b -> 0 < d -> a * d <= c * b -> a / b <= c / d.
Proof.
  intros Hb Hd Hcross.
  replace (a / b) with (a * d / (b * d)) by (field; lra).
  replace (c / d) with (c * b / (b * d)) by (field; lra).
  unfold Rdiv. apply Rmult_le_compat_r; [| exact Hcross].
  left. apply Rinv_0_lt_compat. nra.
Qed.

Section ScsShape.
Variable S : R.
Hypothesis S_pos : 0 < S.

(** The formula above the abstraction threshold, in the excess
    [x = rainfall - Ia], is [x ^ 2 / (x + S)]. *)

Lemma excess_runoff_nonneg (x : R) : 0 < x -> 0 <= x ^ 2 / (x + S).
Proof.
  intros Hx. apply Rmult_le_pos; [nra |].
  left. apply Rinv_0_lt_compat. lra.
Qed.

Lemma excess_runoff_le (x : R) : 0 < x -> x ^ 2 / (x + S) <= x.
Proof.
  intros Hx. replace x with (x / 1) at 3 by field.
  apply Rdiv_le_cross; nra.
Qed.

End ScsShape.

Lemma scs_runoff_bounds (rainfall_mm : R) (soil_class : string) :
  0 <= rainfall_mm ->
  0 <= scs_runoff rainfall_mm soil_class <= rainfall_mm.
Proof.
  intros Hr. unfold scs_runoff.
  pose proof (retention_pos soil_class) as HS.
  pose proof (initial_abstraction_pos soil_class) as HIa.
  case_decide as Hle; [lra |].
  split.
  - apply excess_runoff_nonneg; lra.
  - etransitivity; [apply excess_runoff_le; lra | lra].
Qed.


(** The worked example of the specification: 450 mm on medium soil run
    off as about 341.4 mm, which is about 0.512 m of water and, by the
    rainfall, the tier HIGH. *)
Example monsoon_450_medium :
  exists runoff water_level : R,
    calculate_runoff 450 "medium" = Return runoff /\
    341.4 < runoff < 341.5 /\
    calculate_water_level runoff 100 = Return water_level /\
    0.512 < water_level < 0.513 /\
    classify_flood_risk water_level 450 = ("HIGH", 3%Z).
Proof.
  exists (scs_runoff 450 "medium"), (scs_runoff 450 "medium" / 1000 * 1.5).
  assert (341.4 < scs_runoff 450 "medium" < 341.5) as Hrunoff.
  { unfold scs_runoff, initial_abstraction, retention.
    change (resolve_cn "medium") with 70%Z.
    case_decide as Hle; [exfalso; lra |].
    replace (0.2 * (25400 / 70 - 254)) with (762 / 35) by lra.
    replace (25400 / 70 - 254) with (762 / 7) by lra.
    replace ((450 - 762 / 35) ^ 2 / (450 - 762 / 35 + 762 / 7))
      with (37440024 / 109655) by (field; lra).
    lra. }
  split.
  { apply calculate_runoff_scs. right. apply rainfall_450_in_range. }
  split; [exact Hrunoff |].
  split.
  { unfold calculate_water_level.
    rewrite float_truediv_nonzero by lra. reflexivity. }
  split; [lra |].
  unfold classify_flood_risk.
  repeat case_bool_decide; cbn [orb]; first [reflexivity | exfalso; lra].
Qed.

(** ** calculate_runoff: the claims *)

(** C1, as the code has it.  For every rainfall_mm >= 0 and every
    soil_class string the curve number CN is 85 for "high", 70 for
    "medium", 55 for "low" and 70 for every other string; with
    S = 25400/CN - 254 and Ia = 0.2*S, calculate_runoff returns 0 when
    rainfall_mm <= Ia, and otherwise returns exactly
    (rainfall_mm - Ia)^2 / (rainfall_mm - Ia + S) as long as the square
    (rainfall_mm - Ia)^2 is in the range of a double (below
    2^1024 - 2^970, rainfall up to about 1.34e154); when the square is out
    of range it raises OverflowError. *)
Theorem calculate_runoff_scs_value_in_range
    (rainfall_mm : R) (soil_class : string) :
  0 <= rainfall_mm ->
  exists CN : Z,
    (soil_class = "high" -> CN = 85%Z) /\
    (soil_class = "medium" -> CN = 70%Z) /\
    (soil_class = "low" -> CN = 55%Z) /\
    (soil_class <> "high" -> soil_class <> "medium" -> soil_class <> "low" ->
     CN = 70%Z) /\
    let S := 25400 / IZR CN - 254 in
    let Ia := 0.2 * S in
    (rainfall_mm <= Ia -> calculate_runoff rainfall_mm soil_class = Return 0) /\
    (rainfall_mm > Ia -> (rainfall_mm - Ia) ^ 2 < float_overflow ->
     calculate_runoff rainfall_mm soil_class
     = Return ((rainfall_mm - Ia) ^ 2 / (rainfall_mm - Ia + S))) /\
    (rainfall_mm > Ia -> float_overflow <= (rainfall_mm - Ia) ^ 2 ->
     calculate_runoff rainfall_mm soil_class = Raise OverflowError).
Proof.
  intros _. exists (resolve_cn soil_class).
  repeat split.
  - intros ->. reflexivity.
  - intros ->. reflexivity.
  - intros ->. reflexivity.
  - intros H1 H2 H3. unfold resolve_cn. repeat case_decide; congruence.
  - intros Hle. rewrite calculate_runoff_scs by (left; exact Hle).
    unfold scs_runoff. case_decide as Hd; [reflexivity |].
    exfalso. apply Hd. exact Hle.
  - intros Hgt Hsquare. rewrite calculate_runoff_scs by (right; exact Hsquare).
    unfold scs_runoff. case_decide as Hd; [| reflexivity].
    exfalso. unfold initial_abstraction, retention in Hd. lra.
  - intros Hgt Hsquare. apply calculate_runoff_overflow; assumption.
Qed.

Lemma calculate_runoff_scs_value_in_range_witness :
  exists CN : Z,
    ("medium" = "high" -> CN = 85%Z) /\
    ("medium" = "medium" -> CN = 70%Z) /\
    ("medium" = "low" -> CN = 55%Z) /\
    ("medium" <> "high" -> "medium" <> "medium" -> "medium" <> "low" ->
     CN = 70%Z) /\
    let S := 25400 / IZR CN - 254 in
    let Ia := 0.2 * S in
    (450 <= Ia -> calculate_runoff 450 "medium" = Return 0) /\
    (450 > Ia -> (450 - Ia) ^ 2 < float_overflow ->
     calculate_runoff 450 "medium"
     = Return ((450 - Ia) ^ 2 / (450 - Ia + S))) /\
    (450 > Ia -> float_overflow <= (450 - Ia) ^ 2 ->
     calculate_runoff 450 "medium" = Raise OverflowError).
Proof. apply (calculate_runoff_scs_value_in_range 450 "medium"). lra. Defined.

(** C1, as the claim states it, fails at rainfall_mm = 10^200 on medium
    soil: the square overflows, the call raises OverflowError and returns
    no value. *)
Lemma calculate_runoff_scs_value_overflow :
  0 <= IZR (10 ^ 200) /\
  calculate_runoff (IZR (10 ^ 200)) "medium" = Raise OverflowError /\
  forall value : R, calculate_runoff (IZR (10 ^ 200)) "medium" <> Return value.
Proof.
  assert (calculate_runoff (IZR (10 ^ 200)) "medium" = Raise OverflowError)
    as Hraise.
  { destruct (rainfall_10_200_out_of_range "medium") as [Habove Hsquare].
    exact (calculate_runoff_overflow _ _ Habove Hsquare). }
  split; [constants_le |].
  split; [exact Hraise |].
  intros value. rewrite Hraise. discriminate.
Qed.







(** C7, as the code has it.  calculate_runoff validates nothing and never
    raises InvalidInput.  For every rainfall_mm < 0 it returns 0.0 (a
    negative rainfall is below the initial abstraction).  For every
    rainfall_mm >= 0 it returns a result normally as long as the square
    (rainfall_mm - Ia)^2 is in the range of a double (rainfall up to about
    1.34e154), and raises OverflowError when it is not; for every
    soil_class. *)
Theorem calculate_runoff_outcomes (rainfall_mm : R) (soil_class : string) :
  (rainfall_mm < 0 -> calculate_runoff rainfall_mm soil_class = Return 0) /\
  (0 <= rainfall_mm ->
   (rainfall_mm - initial_abstraction soil_class) ^ 2 < float_overflow ->
   exists runoff_mm : R,
     calculate_runoff rainfall_mm soil_class = Return runoff_mm) /\
  (0 <= rainfall_mm ->
   float_overflow <= (rainfall_mm - initial_abstraction soil_class) ^ 2 ->
   calculate_runoff rainfall_mm soil_class = Raise OverflowError).
Proof.
  split; [| split].
  - intros Hneg. pose proof (initial_abstraction_pos soil_class).
    rewrite calculate_runoff_scs by (left; lra).
    unfold scs_runoff. case_decide; [reflexivity | lra].
  - intros _ Hsquare. eexists. apply calculate_runoff_scs. right. exact Hsquare.
  - intros Hr Hsquare. apply calculate_runoff_overflow; [| exact Hsquare].
    apply in_range_below_abstraction; assumption.
Qed.

Lemma calculate_runoff_outcomes_witness :
  calculate_runoff (-1) "medium" = Return 0 /\
  (exists runoff_mm : R, calculate_runoff 450 "medium" = Return runoff_mm) /\
  calculate_runoff (IZR (10 ^ 200)) "medium" = Raise OverflowError.
Proof.
  split; [| split].
  - apply (calculate_runoff_outcomes (-1) "medium"). lra.
  - apply (calculate_runoff_outcomes 450 "medium"); [lra |].
    apply rainfall_450_in_range.
  - destruct (rainfall_10_200_out_of_range "medium") as [_ Hsquare].
    apply (calculate_runoff_outcomes (IZR (10 ^ 200)) "medium");
      [constants_le | exact Hsquare].
Defined.

(** C7, as the claim states it, fails at rainfall_mm = -1: the call returns
    0.0 and raises nothing, InvalidInput included. *)
Lemma calculate_runoff_negative_not_rejected :
  -1 < 0 /\
  calculate_runoff (-1) "medium" = Return 0 /\
  calculate_runoff (-1) "medium" <> Raise InvalidInput.
Proof.
  assert (calculate_runoff (-1) "medium" = Return 0) as Hrun.
  { pose proof (initial_abstraction_pos "medium").
    rewrite calculate_runoff_scs by (left; lra). unfold scs_runoff.
    case_decide; [reflexivity | lra]. }
  split; [lra |]. split; [exact Hrun |].
  rewrite Hrun. discriminate.
Qed.

(** ** calculate_water_level *)

Lemma calculate_water_level_value (runoff area_km2 : R) :
  calculate_water_level runoff area_km2 = Return (runoff / 1000 * 1.5).
Proof.
  unfold calculate_water_level.
  rewrite float_truediv_nonzero by lra. reflexivity.
Qed.

(** C4. For every runoff_mm >= 0 and every catchment_area_km2 > 0,
    calculate_water_level returns exactly (runoff_mm / 1000) * 1.5, and
    the result does not depend on the area: two positive areas give equal
    results for the same runoff_mm. *)
Theorem calculate_water_level_ignores_area (runoff_mm a1 a2 : R) :
  0 <= runoff_mm -> 0 < a1 -> 0 < a2 ->
  calculate_water_level runoff_mm a1 = Return (runoff_mm / 1000 * 1.5) /\
  calculate_water_level runoff_mm a1 = calculate_water_level runoff_mm a2.
Proof.
  intros _ _ _. rewrite !calculate_water_level_value. split; reflexivity.
Qed.

Lemma calculate_water_level_ignores_area_witness :
  calculate_water_level 340 100 = Return (340 / 1000 * 1.5) /\
  calculate_water_level 340 100 = calculate_water_level 340 2500.
Proof. apply (calculate_water_level_ignores_area 340 100 2500); lra. Defined.

(** ** classify_flood_risk *)

Ltac classify_cases :=
  unfold classify_flood_risk;
  repeat case_bool_decide; cbn [orb];
  first [reflexivity | exfalso; lra | intuition lra].

Lemma classify_flood_risk_low (water_level rainfall : R) :
  water_level <= 1.5 -> rainfall <= 200 ->
  classify_flood_risk water_level rainfall = ("LOW", 1%Z).
Proof. intros Hw Hr. classify_cases. Qed.

(** C3. classify_flood_risk evaluates the tiers in the order Extreme, High,
    Medium, Low, the first match wins, and a tier is triggered when the
    depth or the rainfall exceeds its threshold: above 4.0 or 500 code 4,
    else above 2.5 or 350 code 3, else above 1.5 or 200 code 2, else Low,
    code 1.  The labels are the upper-case strings of the source.  In
    particular (0, 0) is Low, (5.0, 0) and (0, 600) are Extreme. *)
Theorem classify_flood_risk_tiers (depth_m rainfall_mm : R) :
  ((depth_m > 4.0 \/ rainfall_mm > 500) ->
   classify_flood_risk depth_m rainfall_mm = ("EXTREME", 4%Z)) /\
  (~ (depth_m > 4.0 \/ rainfall_mm > 500) ->
   (depth_m > 2.5 \/ rainfall_mm > 350) ->
   classify_flood_risk depth_m rainfall_mm = ("HIGH", 3%Z)) /\
  (~ (depth_m > 2.5 \/ rainfall_mm > 350) ->
   (depth_m > 1.5 \/ rainfall_mm > 200) ->
   classify_flood_risk depth_m rainfall_mm = ("MEDIUM", 2%Z)) /\
  (~ (depth_m > 1.5 \/ rainfall_mm > 200) ->
   classify_flood_risk depth_m rainfall_mm = ("LOW", 1%Z)) /\
  classify_flood_risk 0 0 = ("LOW", 1%Z) /\
  classify_flood_risk 5.0 0 = ("EXTREME", 4%Z) /\
  classify_flood_risk 0 600 = ("EXTREME", 4%Z).
Proof.
  repeat split.
  - intros H. classify_cases.
  - intros H1 H2. classify_cases.
  - intros H1 H2. classify_cases.
  - intros H. classify_cases.
  - classify_cases.
  - classify_cases.
  - classify_cases.
Qed.

Lemma classify_flood_risk_tiers_witness :
  classify_flood_risk 4.5 100 = ("EXTREME", 4%Z) /\
  classify_flood_risk 0.512 450 = ("HIGH", 3%Z) /\
  classify_flood_risk 2 100 = ("MEDIUM", 2%Z) /\
  classify_flood_risk 1 150 = ("LOW", 1%Z).
Proof.
  split; [| split; [| split]].
  - apply (classify_flood_risk_tiers 4.5 100). lra.
  - apply (classify_flood_risk_tiers 0.512 450); lra.
  - apply (classify_flood_risk_tiers 2 100); lra.
  - apply (classify_flood_risk_tiers 1 150). lra.
Defined.

(** C10. classify_flood_risk is total and never raises: on every pair of
    reals it returns one of the four tiers; and whenever water_level <= 1.5
    and rainfall <= 200, negative values included, it returns ('LOW', 1). *)
Theorem classify_flood_risk_total (water_level rainfall : R) :
  (classify_flood_risk water_level rainfall = ("EXTREME", 4%Z) \/
   classify_flood_risk water_level rainfall = ("HIGH", 3%Z) \/
   classify_flood_risk water_level rainfall = ("MEDIUM", 2%Z) \/
   classify_flood_risk water_level rainfall = ("LOW", 1%Z)) /\
  (water_level <= 1.5 -> rainfall <= 200 ->
   classify_flood_risk water_level rainfall = ("LOW", 1%Z)).
Proof.
  split; [| apply classify_flood_risk_low].
  unfold classify_flood_risk.
  repeat case_bool_decide; cbn [orb]; auto.
Qed.

Lemma classify_flood_risk_total_witness :
  classify_flood_risk (-3) (-10) = ("LOW", 1%Z).
Proof. apply (classify_flood_risk_total (-3) (-10)); lra. Defined.

(** ** simulate_flood_progression: the loop *)

Lemma float_pow_unit_base (x y : R) :
  0 <= x <= 1 -> 0 < y -> float_pow x y = Return (real_pow x y).
Proof.
  intros Hx Hy. unfold float_pow, real_pow.
  destruct (decide (0 < x)) as [Hpos | Hzero].
  - case_decide as Hover; [exfalso | reflexivity].
    assert (Rpower x y <= Rpower 1 y) as Hle
      by (apply Rle_Rpower_l; lra).
    unfold Rpower at 2 in Hle. rewrite ln_1, Rmult_0_r, exp_0 in Hle.
    pose proof float_overflow_above_1. lra.
  - repeat case_decide; try reflexivity; exfalso; lra.
Qed.

Lemma py_max_0_nonneg (x : R) : 0 <= py_max 0 x.
Proof. unfold py_max. case_decide; lra. Qed.

Lemma IZR_div_nonneg (h d : Z) : (0 <= h)%Z -> (1 <= d)%Z -> 0 <= IZR h / IZR d.
Proof.
  intros Hh Hd. apply IZR_le in Hh. apply IZR_le in Hd.
  apply Rmult_le_pos; [exact Hh |].
  left. apply Rinv_0_lt_compat. lra.
Qed.

Lemma advance_advance (n m : nat) (g : RandomState) :
  advance n (advance m g) = advance (m + n) g.
Proof. unfold advance. cbn. f_equal. lia. Qed.

Lemma uniform_draw_advance (n k : nat) (g : RandomState) :
  uniform_draw (advance n g) k = uniform_draw g (n + k).
Proof. unfold uniform_draw, advance. cbn. do 3 f_equal. lia. Qed.

Lemma np_random_uniform_draw (g : RandomState) :
  np_random_uniform (-0.1) 0.1 g = (Return (uniform_draw g 0), advance 1 g).
Proof.
  unfold np_random_uniform, bind, random_sample, ret, uniform_draw, advance.
  rewrite Nat.add_0_r, Nat.add_1_r. reflexivity.
Qed.

(** One turn of the loop, for a positive duration and an hour of the
    range: no operator raises, one number is drawn, one level appended. *)
Lemma progression_step_returns (rainfall : R) (duration_hours hour : Z)
    (water_levels : list R) (g : RandomState) :
  (1 <= duration_hours)%Z -> (0 <= hour <= duration_hours)%Z ->
  progression_step rainfall duration_hours hour water_levels g
  = (Return (water_levels
             ++ progression_series rainfall duration_hours [hour] g),
     advance 1 g).
Proof.
  intros Hd [Hh Hlast].
  pose proof (IZR_div_nonneg hour duration_hours Hh Hd) as Hprog.
  assert (IZR hour / IZR duration_hours <= 1) as Hprog1.
  { apply IZR_le in Hlast. apply IZR_le in Hd.
    apply (Rmult_le_reg_r (IZR duration_hours)); [lra |].
    unfold Rdiv. rewrite Rmult_assoc, Rinv_l by lra. lra. }
  unfold progression_step, bind at 1, lift at 1.
  rewrite int_truediv_nonzero by lia.
  cbn [progression_series]. unfold unperturbed_level.
  case_decide as Hphase.
  - unfold bind at 2. unfold bind at 1, lift at 1.
    rewrite float_truediv_nonzero by lra.
    unfold bind at 1, lift at 1.
    rewrite float_truediv_nonzero by lra.
    unfold bind at 1, lift at 1.
    rewrite float_pow_unit_base by lra.
    unfold ret at 1. unfold bind at 1.
    rewrite np_random_uniform_draw. reflexivity.
  - unfold bind at 2. unfold bind at 1, lift at 1.
    rewrite float_truediv_nonzero by lra.
    unfold bind at 1, lift at 1.
    rewrite float_truediv_nonzero by lra.
    unfold bind at 1, lift at 1.
    rewrite float_pow_int_square_unit by lra.
    unfold ret at 1. unfold bind at 1.
    rewrite np_random_uniform_draw. reflexivity.
Qed.

Lemma progression_step_zero_duration (rainfall : R) (hour : Z)
    (water_levels : list R) (g : RandomState) :
  progression_step rainfall 0 hour water_levels g = (Raise ZeroDivisionError, g).
Proof. reflexivity. Qed.

Lemma for_each_progression (rainfall : R) (duration_hours : Z) (hours : list Z) :
  (1 <= duration_hours)%Z ->
  Forall (fun h => (0 <= h <= duration_hours)%Z) hours ->
  forall (water_levels : list R) (g : RandomState),
    for_each hours (progression_step rainfall duration_hours) water_levels g
    = (Return (water_levels
               ++ progression_series rainfall duration_hours hours g),
       advance (length hours) g).
Proof.
  intros Hd Hhours. induction Hhours as [| h rest Hh _ IH]; intros wl g.
  - cbn. unfold ret, advance. rewrite app_nil_r, Nat.add_0_r.
    destruct g; reflexivity.
  - cbn [for_each]. unfold bind.
    rewrite progression_step_returns by assumption.
    rewrite IH, advance_advance. cbn [progression_series length].
    rewrite <- app_assoc. reflexivity.
Qed.

Lemma range_nonneg (n : Z) : Forall (fun h => (0 <= h)%Z) (range n).
Proof.
  unfold range. apply Forall_forall. intros h Hin.
  apply list_elem_of_In, in_map_iff in Hin. destruct Hin as (k & <- & _). lia.
Qed.

Lemma range_upto (n : Z) : Forall (fun h => (0 <= h <= n)%Z) (range (n + 1)).
Proof.
  unfold range. apply Forall_forall. intros h Hin.
  apply list_elem_of_In, in_map_iff in Hin.
  destruct Hin as (k & <- & Hk). apply in_seq in Hk. lia.
Qed.

Lemma length_range (n : Z) : length (range n) = Z.to_nat n.
Proof. unfold range. rewrite length_map, length_seq. reflexivity. Qed.

(** For a positive duration the call returns the series of the hours
    [0 .. duration_hours] and leaves the generator that many draws on. *)
Lemma simulate_flood_progression_series (rainfall : R) (duration_hours : Z)
    (g : RandomState) :
  (1 <= duration_hours)%Z ->
  simulate_flood_progression rainfall duration_hours g
  = (Return (progression_series rainfall duration_hours
               (range (duration_hours + 1)) g),
     advance (Z.to_nat (duration_hours + 1)) g).
Proof.
  intros Hd. unfold simulate_flood_progression.
  rewrite for_each_progression by (try apply range_upto; assumption).
  rewrite length_range. reflexivity.
Qed.

Lemma length_progression_series (rainfall : R) (duration_hours : Z)
    (hours : list Z) (g : RandomState) :
  length (progression_series rainfall duration_hours hours g) = length hours.
Proof.
  revert g. induction hours as [| h rest IH]; intros g; cbn; [| rewrite IH];
    reflexivity.
Qed.

Lemma progression_series_nonneg (rainfall : R) (duration_hours : Z)
    (hours : list Z) (g : RandomState) :
  Forall (fun level => 0 <= level)
         (progression_series rainfall duration_hours hours g).
Proof.
  revert g. induction hours as [| h rest IH]; intros g; cbn.
  - constructor.
  - constructor; [apply py_max_0_nonneg | apply IH].
Qed.

(** Every sequence of noise values is the sequence of draws of some
    generator state, so a statement over all states covers every sequence
    of per-hour draws. *)
Lemma uniform_draw_any_sequence (noise : nat -> R) :
  exists g : RandomState, forall k : nat, uniform_draw g k = noise k.
Proof.
  exists (seeded (fun k => (noise k + 0.1) / 0.2)).
  intros k. unfold uniform_draw, seeded. cbn [samples position Nat.add]. lra.
Qed.


(** ** simulate_flood_progression: the claims *)

(** C2. For every rainfall_mm >= 0, every integer duration_hours >= 1 and
    every sequence of per-hour noise draws in [-0.1, 0.1],
    simulate_flood_progression returns a sequence of length exactly
    duration_hours + 1 in which every element is >= 0. *)
Theorem simulate_flood_progression_length_nonneg
    (rainfall_mm : R) (duration_hours : Z) (g : RandomState) :
  0 <= rainfall_mm -> (1 <= duration_hours)%Z ->
  (forall k : nat, -0.1 <= uniform_draw g k <= 0.1) ->
  exists levels : list R,
    fst (simulate_flood_progression rainfall_mm duration_hours g) = Return levels /\
    Z.of_nat (length levels) = (duration_hours + 1)%Z /\
    Forall (fun level => 0 <= level) levels.
Proof.
  intros _ Hd _. rewrite simulate_flood_progression_series by exact Hd.
  eexists. split; [reflexivity |]. split.
  - rewrite length_progression_series, length_range. lia.
  - apply progression_series_nonneg.
Qed.

Lemma simulate_flood_progression_length_nonneg_witness :
  exists levels : list R,
    fst (simulate_flood_progression 450 72 (seeded (fun _ => 0.5)))
    = Return levels /\
    Z.of_nat (length levels) = (72 + 1)%Z /\
    Forall (fun level => 0 <= level) levels.
Proof.
  apply (simulate_flood_progression_length_nonneg 450 72 (seeded (fun _ => 0.5))).
  - lra.
  - lia.
  - intros k. unfold uniform_draw, seeded. cbn. lra.
Defined.

(** C8, as the code has it.  simulate_flood_progression validates nothing
    and never raises InvalidInput: a duration of 0 raises
    ZeroDivisionError at the first hour, a negative duration returns the
    empty sequence, and every duration_hours >= 1 returns a sequence
    normally for every rainfall_mm, negative ones included. *)
Theorem simulate_flood_progression_outcomes
    (rainfall_mm : R) (duration_hours : Z) (g : RandomState) :
  (duration_hours = 0%Z ->
   fst (simulate_flood_progression rainfall_mm duration_hours g)
   = Raise ZeroDivisionError) /\
  ((duration_hours < 0)%Z ->
   fst (simulate_flood_progression rainfall_mm duration_hours g) = Return []) /\
  ((1 <= duration_hours)%Z ->
   exists levels : list R,
     fst (simulate_flood_progression rainfall_mm duration_hours g)
     = Return levels).
Proof.
  repeat split.
  - intros ->. reflexivity.
  - intros Hneg. unfold simulate_flood_progression, range.
    replace (Z.to_nat (duration_hours + 1)) with 0%nat by lia. reflexivity.
  - intros Hd. rewrite simulate_flood_progression_series by exact Hd.
    eexists. reflexivity.
Qed.

Lemma simulate_flood_progression_outcomes_witness :
  fst (simulate_flood_progression 450 0 (seeded (fun _ => 0.5)))
  = Raise ZeroDivisionError /\
  fst (simulate_flood_progression 450 (-3) (seeded (fun _ => 0.5)))
  = Return [] /\
  exists levels : list R,
    fst (simulate_flood_progression (-450) 72 (seeded (fun _ => 0.5)))
    = Return levels.
Proof.
  split; [| split].
  - apply (simulate_flood_progression_outcomes 450 0). reflexivity.
  - apply (simulate_flood_progression_outcomes 450 (-3)). lia.
  - apply (simulate_flood_progression_outcomes (-450) 72). lia.
Defined.

(** C8, as the claim states it, fails: a negative rainfall with a duration
    of 1 returns the sequence [0, 0], a negative duration returns the empty
    sequence, and the error of a zero duration is ZeroDivisionError, not
    InvalidInput. *)
Lemma simulate_flood_progression_invalid_not_rejected :
  fst (simulate_flood_progression (-1) 1 (seeded (fun _ => 0.5)))
  = Return [0; 0] /\
  fst (simulate_flood_progression 450 (-1) (seeded (fun _ => 0.5)))
  = Return [] /\
  fst (simulate_flood_progression 450 0 (seeded (fun _ => 0.5)))
  <> Raise InvalidInput.
Proof.
  split; [| split].
  - rewrite simulate_flood_progression_series by lia.
    change (range (1 + 1)) with [0%Z; 1%Z].
    cbn [fst progression_series]. do 2 f_equal; [| f_equal].
    + unfold unperturbed_level, real_pow, py_max.
      repeat case_decide; lra.
    + unfold unperturbed_level, py_max.
      replace ((IZR 1 / IZR 1 - 0.7) / (1 - 0.7)) with 1 by lra.
      repeat case_decide; lra.
  - reflexivity.
  - discriminate.
Qed.



(** ** Further properties of calculate_runoff *)

Section ScsRetention.
Variables S1 S2 : R.
Hypothesis S1_pos : 0 < S1.
Hypothesis S1_le_S2 : S1 <= S2.

(** A larger retention gives less runoff from the same rainfall. *)
Lemma excess_runoff_antitone (P : R) :
  0.2 * S2 < P ->
  (P - 0.2 * S2) ^ 2 / (P - 0.2 * S2 + S2)
  <= (P - 0.2 * S1) ^ 2 / (P - 0.2 * S1 + S1).
Proof.
  intros HP. apply Rdiv_le_cross; try lra.
  assert (0 <= (P - 0.2 * S2) ^ 2) by nra.
  assert ((P - 0.2 * S2) ^ 2 <= (P - 0.2 * S1) ^ 2) by nra.
  apply Rmult_le_compat; lra.
Qed.
End ScsRetention.

Lemma scs_runoff_nonneg (rainfall_mm : R) (soil_class : string) :
  0 <= scs_runoff rainfall_mm soil_class.
Proof.
  unfold scs_runoff. pose proof (retention_pos soil_class).
  case_decide; [lra | apply excess_runoff_nonneg; lra].
Qed.

Lemma scs_runoff_retention_order (rainfall_mm : R) (wet dry : string) :
  retention wet <= retention dry ->
  scs_runoff rainfall_mm dry <= scs_runoff rainfall_mm wet.
Proof.
  intros Hret. pose proof (retention_pos wet) as Hwet.
  unfold scs_runoff, initial_abstraction.
  destruct (decide (rainfall_mm <= 0.2 * retention dry)) as [Hdry | Hdry].
  - fold (initial_abstraction wet). fold (scs_runoff rainfall_mm wet).
    apply scs_runoff_nonneg.
  - destruct (decide (rainfall_mm <= 0.2 * retention wet)) as [Hw | Hw]; [lra |].
    apply excess_runoff_antitone; lra.
Qed.

(** X1. For one and the same rainfall up to 10^154 mm (where no square
    overflows) the three soil classes are ordered: "high" (curve number
    85) runs off at least as much as "medium" (70), and "medium" at least
    as much as "low" (55). *)
Theorem calculate_runoff_soil_order (rainfall : R) :
  rainfall <= IZR (10 ^ 154) ->
  exists q_high q_medium q_low : R,
    calculate_runoff rainfall "high" = Return q_high /\
    calculate_runoff rainfall "medium" = Return q_medium /\
    calculate_runoff rainfall "low" = Return q_low /\
    q_low <= q_medium <= q_high.
Proof.
  intros Hmodest.
  exists (scs_runoff rainfall "high"), (scs_runoff rainfall "medium"),
         (scs_runoff rainfall "low").
  repeat split;
    try (apply calculate_runoff_scs, modest_rainfall_in_range; exact Hmodest).
  - apply scs_runoff_retention_order. unfold retention.
    change (resolve_cn "medium") with 70%Z.
    change (resolve_cn "low") with 55%Z. lra.
  - apply scs_runoff_retention_order. unfold retention.
    change (resolve_cn "medium") with 70%Z.
    change (resolve_cn "high") with 85%Z. lra.
Qed.

Lemma calculate_runoff_soil_order_witness :
  exists q_high q_medium q_low : R,
    calculate_runoff 450 "high" = Return q_high /\
    calculate_runoff 450 "medium" = Return q_medium /\
    calculate_runoff 450 "low" = Return q_low /\
    q_low <= q_medium <= q_high.
Proof. apply (calculate_runoff_soil_order 450). constants_le. Defined.

(** X2. Above the abstraction threshold Ia = 0.2 * S, with
    S = 25400 / CN - 254, and with the square (rainfall - Ia)^2 in the
    range of a double, the runoff is positive, and the rainfall that does
    not run off is more than Ia and less than Ia + S. *)
Theorem calculate_runoff_loss_bounds (rainfall : R) (soil_type : string) :
  rainfall > 0.2 * (25400 / IZR (resolve_cn soil_type) - 254) ->
  (rainfall - 0.2 * (25400 / IZR (resolve_cn soil_type) - 254)) ^ 2
  < float_overflow ->
  exists runoff : R,
    calculate_runoff rainfall soil_type = Return runoff /\
    0 < runoff /\
    0.2 * (25400 / IZR (resolve_cn soil_type) - 254) < rainfall - runoff /\
    rainfall - runoff < 1.2 * (25400 / IZR (resolve_cn soil_type) - 254).
Proof.
  intros Habove Hsquare. exists (scs_runoff rainfall soil_type).
  split; [apply calculate_runoff_scs; right; exact Hsquare |].
  clear Hsquare.
  pose proof (retention_pos soil_type) as HS.
  unfold scs_runoff, initial_abstraction. unfold retention in *.
  set (S := 25400 / IZR (resolve_cn soil_type) - 254) in *.
  case_decide as Hle; [lra |].
  set (x := rainfall - 0.2 * S).
  assert (0 < x) as Hx by (unfold x; lra).
  assert (0 < / (x + S)) as Hinv by (apply Rinv_0_lt_compat; lra).
  assert (x ^ 2 / (x + S) = x - x * S * / (x + S)) as Hsplit
    by (field; lra).
  assert (0 < x * S * / (x + S)) as Hlost
    by (apply Rmult_lt_0_compat; [nra | exact Hinv]).
  assert (x * S * / (x + S) < S) as Hcap.
  { apply (Rmult_lt_reg_r (x + S)); [lra |].
    rewrite Rmult_assoc, Rinv_l by lra. nra. }
  assert (x * S * / (x + S) < x) as Hpart.
  { apply (Rmult_lt_reg_r (x + S)); [lra |].
    rewrite Rmult_assoc, Rinv_l by lra. nra. }
  rewrite Hsplit. unfold x in *. repeat split; lra.
Qed.

Lemma calculate_runoff_loss_bounds_witness :
  exists runoff : R,
    calculate_runoff 450 "medium" = Return runoff /\
    0 < runoff /\
    0.2 * (25400 / IZR (resolve_cn "medium") - 254) < 450 - runoff /\
    450 - runoff < 1.2 * (25400 / IZR (resolve_cn "medium") - 254).
Proof.
  apply (calculate_runoff_loss_bounds 450 "medium").
  - change (resolve_cn "medium") with 70%Z. lra.
  - apply (rainfall_450_in_range "medium").
Defined.

(** ** Further properties of classify_flood_risk *)

(** X3. The numeric risk level never decreases when the water level, the
    rainfall, or both increase. *)
Theorem classify_flood_risk_monotone (w1 w2 r1 r2 : R) :
  w1 <= w2 -> r1 <= r2 ->
  (snd (classify_flood_risk w1 r1) <= snd (classify_flood_risk w2 r2))%Z.
Proof.
  intros Hw Hr. unfold classify_flood_risk.
  repeat case_bool_decide; cbn [orb snd]; first [lia | exfalso; lra].
Qed.

Lemma classify_flood_risk_monotone_witness :
  (snd (classify_flood_risk 1 100) <= snd (classify_flood_risk 3 100))%Z.
Proof. apply (classify_flood_risk_monotone 1 3 100 100); lra. Defined.

(** ** The three estimates in sequence *)

(** X4. When the runoff of a rainfall up to 10^154 mm (where the square
    does not overflow) is turned into a water level and both are
    classified, as the demonstration in [main] does, the water level never
    decides the tier: the depth is at most 0.0015 times the rainfall, so a
    depth above 1.5 m needs more than 1000 mm of rain, which is EXTREME by
    the rainfall alone.  The result is that of the rainfall with a water
    level of 0. *)
Theorem pipeline_risk_by_rainfall_alone
    (rainfall : R) (soil_type : string) (area_km2 : R) :
  rainfall <= IZR (10 ^ 154) ->
  exists runoff water_level : R,
    calculate_runoff rainfall soil_type = Return runoff /\
    calculate_water_level runoff area_km2 = Return water_level /\
    classify_flood_risk water_level rainfall = classify_flood_risk 0 rainfall.
Proof.
  intros Hmodest.
  exists (scs_runoff rainfall soil_type),
         (scs_runoff rainfall soil_type / 1000 * 1.5).
  split; [apply calculate_runoff_scs, modest_rainfall_in_range, Hmodest |].
  clear Hmodest.
  split; [apply calculate_water_level_value |].
  assert (0 <= rainfall -> scs_runoff rainfall soil_type <= rainfall) as Hpos
    by (intros Hr; apply scs_runoff_bounds, Hr).
  assert (rainfall < 0 -> scs_runoff rainfall soil_type = 0) as Hneg.
  { intros Hr. unfold scs_runoff.
    pose proof (initial_abstraction_pos soil_type).
    case_decide; [reflexivity | lra]. }
  destruct (Rle_or_lt 0 rainfall) as [Hr | Hr].
  - specialize (Hpos Hr). unfold classify_flood_risk.
    repeat case_bool_decide; cbn [orb]; first [reflexivity | exfalso; lra].
  - rewrite (Hneg Hr).
    replace (0 / 1000 * 1.5) with 0 by lra. reflexivity.
Qed.

Lemma pipeline_risk_by_rainfall_alone_witness :
  exists runoff water_level : R,
    calculate_runoff 450 "medium" = Return runoff /\
    calculate_water_level runoff 100 = Return water_level /\
    classify_flood_risk water_level 450 = classify_flood_risk 0 450.
Proof. apply (pipeline_risk_by_rainfall_alone 450 "medium" 100). constants_le. Defined.

(** ** Further properties of simulate_flood_progression *)

Lemma real_pow_nonneg (x y : R) : 0 <= real_pow x y.
Proof.
  unfold real_pow. case_decide; [| lra].
  left. unfold Rpower. apply exp_pos.
Qed.

Lemma Rpower_base_1 (y : R) : Rpower 1 y = 1.
Proof. unfold Rpower. rewrite ln_1, Rmult_0_r. apply exp_0. Qed.

Lemma real_pow_mono (x1 x2 y : R) :
  0 <= y -> x1 <= x2 -> real_pow x1 y <= real_pow x2 y.
Proof.
  intros Hy Hx. unfold real_pow at 1. case_decide as H1.
  - unfold real_pow. case_decide; [| lra].
    apply Rle_Rpower_l; lra.
  - apply real_pow_nonneg.
Qed.

Lemma real_pow_le_1 (x y : R) : 0 <= y -> x <= 1 -> real_pow x y <= 1.
Proof.
  intros Hy Hx. etransitivity; [apply (real_pow_mono x 1 y Hy Hx) |].
  unfold real_pow. case_decide; [| lra].
  rewrite Rpower_base_1. lra.
Qed.

Section Progress.
Variable duration_hours : Z.
Hypothesis duration_pos : (1 <= duration_hours)%Z.

Lemma progress_mono (h1 h2 : Z) :
  (h1 <= h2)%Z -> IZR h1 / IZR duration_hours <= IZR h2 / IZR duration_hours.
Proof.
  intros Hh. apply IZR_le in Hh. pose proof (IZR_le _ _ duration_pos).
  unfold Rdiv. apply Rmult_le_compat_r; [| exact Hh].
  left. apply Rinv_0_lt_compat. lra.
Qed.

Lemma progress_end : IZR duration_hours / IZR duration_hours = 1.
Proof. pose proof (IZR_le _ _ duration_pos). field. lra. Qed.

Lemma progress_start : IZR 0 / IZR duration_hours = 0.
Proof. unfold Rdiv. apply Rmult_0_l. Qed.

Lemma progress_range (h : Z) :
  (0 <= h <= duration_hours)%Z -> 0 <= IZR h / IZR duration_hours <= 1.
Proof.
  intros [H0 Hd]. split.
  - rewrite <- progress_start. apply progress_mono, H0.
  - rewrite <- progress_end. apply progress_mono, Hd.
Qed.

(** The factor that multiplies [rainfall / 100] lies between 0 and 1. *)
Lemma unperturbed_level_bounds (rainfall : R) (h : Z) :
  0 <= rainfall -> (0 <= h <= duration_hours)%Z ->
  0 <= unperturbed_level rainfall duration_hours h <= rainfall / 100.
Proof.
  intros Hr Hh. pose proof (progress_range h Hh) as Hp.
  unfold unperturbed_level.
  set (p := IZR h / IZR duration_hours) in *.
  case_decide as Hphase.
  - pose proof (real_pow_nonneg (p / 0.7) 1.5).
    assert (real_pow (p / 0.7) 1.5 <= 1) by (apply real_pow_le_1; lra).
    nra.
  - replace ((p - 0.7) / (1 - 0.7)) with ((p - 0.7) * (10 / 3)) by lra.
    set (q := 1 - (p - 0.7) * (10 / 3)).
    assert (0 <= q <= 1) by (unfold q; lra).
    assert (0 <= q ^ 2 <= 1) by nra.
    set (t := q ^ 2) in *. nra.
Qed.

Lemma unperturbed_level_nonpos (rainfall : R) (h : Z) :
  rainfall <= 0 -> unperturbed_level rainfall duration_hours h <= 0.
Proof.
  intros Hr. unfold unperturbed_level. case_decide.
  - pose proof (real_pow_nonneg (IZR h / IZR duration_hours / 0.7) 1.5). nra.
  - set (q := 1 - (IZR h / IZR duration_hours - 0.7) / (1 - 0.7)).
    assert (0 <= q ^ 2) by nra.
    set (t := q ^ 2) in *. nra.
Qed.

Lemma unperturbed_level_rising (rainfall : R) (h1 h2 : Z) :
  0 <= rainfall -> (h1 <= h2)%Z -> IZR h2 / IZR duration_hours < 0.7 ->
  unperturbed_level rainfall duration_hours h1
  <= unperturbed_level rainfall duration_hours h2.
Proof.
  intros Hr Hh Hbefore. pose proof (progress_mono h1 h2 Hh) as Hp.
  unfold unperturbed_level. repeat case_decide; try lra.
  apply Rmult_le_compat_l; [lra |].
  apply real_pow_mono; lra.
Qed.

Lemma unperturbed_level_receding (rainfall : R) (h1 h2 : Z) :
  0 <= rainfall -> (h1 <= h2 <= duration_hours)%Z ->
  0.7 <= IZR h1 / IZR duration_hours ->
  unperturbed_level rainfall duration_hours h2
  <= unperturbed_level rainfall duration_hours h1.
Proof.
  intros Hr [Hh Hd] Hafter. pose proof (progress_mono h1 h2 Hh) as Hp.
  assert (IZR h2 / IZR duration_hours <= 1) as Hp2
    by (rewrite <- progress_end; apply progress_mono, Hd).
  unfold unperturbed_level. repeat case_decide; try lra.
  set (p1 := IZR h1 / IZR duration_hours) in *.
  set (p2 := IZR h2 / IZR duration_hours) in *.
  replace ((p1 - 0.7) / (1 - 0.7)) with ((p1 - 0.7) * (10 / 3)) by lra.
  replace ((p2 - 0.7) / (1 - 0.7)) with ((p2 - 0.7) * (10 / 3)) by lra.
  apply Rmult_le_compat_l; [lra |].
  set (q1 := 1 - (p1 - 0.7) * (10 / 3)).
  set (q2 := 1 - (p2 - 0.7) * (10 / 3)).
  assert (0 <= q2 <= q1) by (unfold q1, q2; lra).
  apply pow_incr. lra.
Qed.

Lemma unperturbed_level_start (rainfall : R) :
  unperturbed_level rainfall duration_hours 0 = 0.
Proof.
  unfold unperturbed_level. rewrite progress_start.
  case_decide; [| lra]. unfold real_pow.
  case_decide; [exfalso |]; lra.
Qed.

Lemma unperturbed_level_end (rainfall : R) :
  unperturbed_level rainfall duration_hours duration_hours = 0.
Proof.
  unfold unperturbed_level. rewrite progress_end.
  case_decide; [lra |].
  replace ((1 - 0.7) / (1 - 0.7)) with 1 by lra. lra.
Qed.
End Progress.

Lemma range_bounds (n : Z) :
  Forall (fun h => (0 <= h < n)%Z) (range n).
Proof.
  unfold range. apply Forall_forall. intros h Hin.
  apply list_elem_of_In, in_map_iff in Hin.
  destruct Hin as (k & <- & Hk). apply in_seq in Hk. lia.
Qed.

Lemma range_nth (n : Z) (k : nat) :
  (k < Z.to_nat n)%nat -> nth k (range n) 0%Z = Z.of_nat k.
Proof.
  intros Hk. unfold range. change 0%Z with (Z.of_nat 0).
  rewrite map_nth, seq_nth by exact Hk. reflexivity.
Qed.

Lemma range_snoc (n : Z) :
  (0 <= n)%Z -> range (n + 1) = range n ++ [n].
Proof.
  intros Hn. unfold range.
  replace (Z.to_nat (n + 1)) with (S (Z.to_nat n)) by lia.
  rewrite seq_S, map_app. cbn. rewrite Z2Nat.id by exact Hn. reflexivity.
Qed.

(** Element [k] of the series belongs to hour [k] and uses draw [k]. *)
Lemma progression_series_nth (rainfall : R) (duration_hours : Z)
    (hours : list Z) :
  forall (g : RandomState) (k : nat),
    (k < length hours)%nat ->
    nth k (progression_series rainfall duration_hours hours g) 0
    = py_max 0
        (unperturbed_level rainfall duration_hours (nth k hours 0%Z)
         + unperturbed_level rainfall duration_hours (nth k hours 0%Z)
           * uniform_draw g k).
Proof.
  induction hours as [| h rest IH]; intros g k Hk; cbn in Hk; [lia |].
  destruct k as [| k]; cbn [progression_series nth]; [reflexivity |].
  rewrite IH by lia. rewrite uniform_draw_advance. reflexivity.
Qed.

Lemma progression_series_app (rainfall : R) (duration_hours : Z)
    (hours1 hours2 : list Z) :
  forall g : RandomState,
    progression_series rainfall duration_hours (hours1 ++ hours2) g
    = progression_series rainfall duration_hours hours1 g
      ++ progression_series rainfall duration_hours hours2
           (advance (length hours1) g).
Proof.
  induction hours1 as [| h rest IH]; intros g; cbn.
  - f_equal. unfold advance. rewrite Nat.add_0_r. destruct g; reflexivity.
  - rewrite IH, advance_advance. reflexivity.
Qed.

(** A property of every level that holds for every draw in range holds
    for the whole series. *)
Lemma progression_series_Forall (Q : R -> Prop) (rainfall : R)
    (duration_hours : Z) (hours : list Z) :
  Forall (fun h => forall u : R, -0.1 <= u <= 0.1 ->
            Q (py_max 0 (unperturbed_level rainfall duration_hours h
                         + unperturbed_level rainfall duration_hours h * u)))
         hours ->
  forall g : RandomState,
    (forall k : nat, -0.1 <= uniform_draw g k <= 0.1) ->
    Forall Q (progression_series rainfall duration_hours hours g).
Proof.
  intros Hhours. induction Hhours as [| h rest Hh _ IH]; intros g Hg; cbn.
  - constructor.
  - constructor; [apply Hh, Hg |].
    apply IH. intros k. rewrite uniform_draw_advance. apply Hg.
Qed.

(** X5. For rainfall >= 0, duration_hours >= 1 and draws within
    [-0.1, 0.1], no level of the returned sequence exceeds 1.1 times
    rainfall / 100: the curve peaks at rainfall / 100 and the jitter adds
    at most a tenth. *)
Theorem simulate_flood_progression_peak_bound
    (rainfall : R) (duration_hours : Z) (g : RandomState) :
  0 <= rainfall -> (1 <= duration_hours)%Z ->
  (forall k : nat, -0.1 <= uniform_draw g k <= 0.1) ->
  exists levels : list R,
    fst (simulate_flood_progression rainfall duration_hours g) = Return levels /\
    Forall (fun level => level <= 1.1 * (rainfall / 100)) levels.
Proof.
  intros Hr Hd Hg. rewrite simulate_flood_progression_series by exact Hd.
  eexists. split; [reflexivity |].
  apply progression_series_Forall; [| exact Hg].
  eapply Forall_impl; [apply range_bounds |].
  intros h Hh u Hu. cbn beta in Hh.
  pose proof (unperturbed_level_bounds duration_hours Hd rainfall h Hr) as Hlv.
  specialize (Hlv ltac:(lia)).
  unfold py_max. case_decide; nra.
Qed.

Lemma simulate_flood_progression_peak_bound_witness :
  exists levels : list R,
    fst (simulate_flood_progression 450 72 (seeded (fun _ => 0.5)))
    = Return levels /\
    Forall (fun level => level <= 1.1 * (450 / 100)) levels.
Proof.
  apply (simulate_flood_progression_peak_bound 450 72 (seeded (fun _ => 0.5))).
  - lra.
  - lia.
  - intros k. unfold uniform_draw, seeded. cbn [samples position]. lra.
Defined.

(** X6. For duration_hours >= 1 the returned sequence starts and ends
    with 0, whatever the rainfall and the draws: the curve is 0 at hour 0
    and at hour duration_hours, and the jitter is multiplicative. *)
Theorem simulate_flood_progression_endpoints
    (rainfall : R) (duration_hours : Z) (g : RandomState) :
  (1 <= duration_hours)%Z ->
  exists middle : list R,
    fst (simulate_flood_progression rainfall duration_hours g)
    = Return (0 :: middle ++ [0]).
Proof.
  intros Hd. rewrite simulate_flood_progression_series by exact Hd.
  rewrite range_snoc by lia.
  assert (range duration_hours = 0%Z :: tl (range duration_hours)) as Hhead.
  { unfold range. destruct (Z.to_nat duration_hours) eqn:Hn; [lia |].
    reflexivity. }
  rewrite Hhead, <- app_comm_cons.
  cbn [fst progression_series]. rewrite progression_series_app.
  cbn [progression_series].
  rewrite unperturbed_level_start, unperturbed_level_end by exact Hd.
  eexists. f_equal. f_equal.
  - unfold py_max. case_decide; lra.
  - f_equal. f_equal. unfold py_max. case_decide; lra.
Qed.

Lemma simulate_flood_progression_endpoints_witness :
  exists middle : list R,
    fst (simulate_flood_progression 450 72 (seeded low_then_middle))
    = Return (0 :: middle ++ [0]).
Proof.
  apply (simulate_flood_progression_endpoints 450 72). lia.
Defined.

(** X7. Without rain nothing rises: for rainfall <= 0 (negative values are
    not rejected), duration_hours >= 1 and draws within [-0.1, 0.1] every
    level of the returned sequence is 0. *)
Theorem simulate_flood_progression_dry
    (rainfall : R) (duration_hours : Z) (g : RandomState) :
  rainfall <= 0 -> (1 <= duration_hours)%Z ->
  (forall k : nat, -0.1 <= uniform_draw g k <= 0.1) ->
  exists levels : list R,
    fst (simulate_flood_progression rainfall duration_hours g) = Return levels /\
    Forall (fun level => level = 0) levels.
Proof.
  intros Hr Hd Hg. rewrite simulate_flood_progression_series by exact Hd.
  eexists. split; [reflexivity |].
  apply progression_series_Forall; [| exact Hg].
  apply Forall_forall. intros h _ u Hu.
  pose proof (unperturbed_level_nonpos duration_hours rainfall h Hr) as Hlv.
  unfold py_max. case_decide; nra.
Qed.

Lemma simulate_flood_progression_dry_witness :
  exists levels : list R,
    fst (simulate_flood_progression 0 72 (seeded (fun _ => 0.5)))
    = Return levels /\
    Forall (fun level => level = 0) levels.
Proof.
  apply (simulate_flood_progression_dry 0 72 (seeded (fun _ => 0.5))).
  - lra.
  - lia.
  - intros k. unfold uniform_draw, seeded. cbn [samples position]. lra.
Defined.

Lemma simulate_flood_progression_nth
    (rainfall : R) (duration_hours : Z) (g : RandomState) (k : nat) :
  (1 <= duration_hours)%Z -> (Z.of_nat k <= duration_hours)%Z ->
  exists levels : list R,
    fst (simulate_flood_progression rainfall duration_hours g) = Return levels /\
    nth k levels 0
    = py_max 0
        (unperturbed_level rainfall duration_hours (Z.of_nat k)
         + unperturbed_level rainfall duration_hours (Z.of_nat k)
           * uniform_draw g k).
Proof.
  intros Hd Hk. rewrite simulate_flood_progression_series by exact Hd.
  eexists. split; [reflexivity |].
  rewrite progression_series_nth by (rewrite length_range; lia).
  rewrite range_nth by lia. reflexivity.
Qed.

(** X8. The trend under the jitter: when every draw is 0, the levels for
    rainfall >= 0 and duration_hours >= 1 do not decrease from hour to hour
    while hour / duration_hours < 0.7, and do not increase from hour to
    hour once hour / duration_hours >= 0.7. *)
Theorem simulate_flood_progression_rise_and_fall
    (rainfall : R) (duration_hours : Z) (g : RandomState) :
  0 <= rainfall -> (1 <= duration_hours)%Z ->
  (forall k : nat, uniform_draw g k = 0) ->
  exists levels : list R,
    fst (simulate_flood_progression rainfall duration_hours g) = Return levels /\
    (forall i j : nat,
       (i <= j)%nat -> IZR (Z.of_nat j) / IZR duration_hours < 0.7 ->
       nth i levels 0 <= nth j levels 0) /\
    (forall i j : nat,
       (i <= j)%nat -> (Z.of_nat j <= duration_hours)%Z ->
       0.7 <= IZR (Z.of_nat i) / IZR duration_hours ->
       nth j levels 0 <= nth i levels 0).
Proof.
  intros Hr Hd Hg.
  assert (forall k : nat, (Z.of_nat k <= duration_hours)%Z ->
            nth k (progression_series rainfall duration_hours
                     (range (duration_hours + 1)) g) 0
            = unperturbed_level rainfall duration_hours (Z.of_nat k)) as Hnth.
  { intros k Hk.
    rewrite progression_series_nth by (rewrite length_range; lia).
    rewrite range_nth by lia. rewrite Hg.
    pose proof (unperturbed_level_bounds duration_hours Hd rainfall
                  (Z.of_nat k) Hr ltac:(lia)) as Hlv.
    unfold py_max. case_decide; lra. }
  rewrite simulate_flood_progression_series by exact Hd.
  eexists. split; [reflexivity |]. split.
  - intros i j Hij Hbefore.
    assert (Z.of_nat j <= duration_hours)%Z as Hj.
    { apply Z.lt_le_incl, lt_IZR. apply IZR_le in Hd.
      apply (Rmult_lt_reg_r (/ IZR duration_hours));
        [apply Rinv_0_lt_compat; lra |].
      rewrite Rinv_r by lra. fold (IZR (Z.of_nat j) / IZR duration_hours).
      lra. }
    rewrite !Hnth by lia.
    apply unperturbed_level_rising; [exact Hd | exact Hr | lia | exact Hbefore].
  - intros i j Hij Hj Hafter.
    rewrite !Hnth by lia.
    apply unperturbed_level_receding; [exact Hd | exact Hr | lia | exact Hafter].
Qed.

Lemma simulate_flood_progression_rise_and_fall_witness :
  exists levels : list R,
    fst (simulate_flood_progression 450 72 (seeded (fun _ => 0.5)))
    = Return levels /\
    (forall i j : nat,
       (i <= j)%nat -> IZR (Z.of_nat j) / IZR 72 < 0.7 ->
       nth i levels 0 <= nth j levels 0) /\
    (forall i j : nat,
       (i <= j)%nat -> (Z.of_nat j <= 72)%Z ->
       0.7 <= IZR (Z.of_nat i) / IZR 72 ->
       nth j levels 0 <= nth i levels 0).
Proof.
  apply (simulate_flood_progression_rise_and_fall 450 72 (seeded (fun _ => 0.5))).
  - lra.
  - lia.
  - intros k. unfold uniform_draw, seeded. cbn [samples position]. lra.
Defined.

(** ** The data processor: sorting *)

Import FloodDataProcessor.

Lemma Sorted_weaken {A : Type} (R1 R2 : A -> A -> Prop) (l : list A) :
  (forall a b : A, R1 a b -> R2 a b) -> Sorted R1 l -> Sorted R2 l.
Proof.
  intros Himpl Hsorted. induction Hsorted as [| a l _ IH Hhd]; constructor.
  - exact IH.
  - destruct Hhd; constructor. apply Himpl. assumption.
Qed.

Lemma filter_none {A : Type} (P : A -> Prop) `{!forall a, Decision (P a)}
    (l : list A) :
  Forall (fun a => ~ P a) l -> filter P l = [].
Proof.
  intros Hl. induction Hl as [| x rest Hx _ IH]; [reflexivity |].
  rewrite filter_cons_False by exact Hx. exact IH.
Qed.

Section StableSort.
Context {A : Type} (comes_first : A -> A -> bool).

Lemma py_sorted_cons (x : A) (l : list A) :
  py_sorted comes_first (x :: l)
  = insert_stable comes_first x (py_sorted comes_first l).
Proof. reflexivity. Qed.

Lemma insert_stable_perm (x : A) (l : list A) :
  insert_stable comes_first x l ≡ₚ x :: l.
Proof.
  induction l as [| y rest IH]; cbn; [reflexivity |].
  destruct (comes_first y x); [| reflexivity].
  rewrite IH. apply Permutation_swap.
Qed.

Lemma py_sorted_perm (l : list A) : py_sorted comes_first l ≡ₚ l.
Proof.
  induction l as [| x rest IH]; cbn; [reflexivity |].
  rewrite insert_stable_perm. f_equiv. exact IH.
Qed.

Lemma length_py_sorted (l : list A) :
  length (py_sorted comes_first l) = length l.
Proof. apply Permutation_length, py_sorted_perm. Qed.

Lemma insert_stable_front (x : A) (l : list A) :
  Forall (fun y => comes_first y x = false) l ->
  insert_stable comes_first x l = x :: l.
Proof.
  intros Hl. destruct Hl as [| y rest Hy _]; cbn; [reflexivity |].
  rewrite Hy. reflexivity.
Qed.

(** The order is one-way: of two elements at most one sorts strictly
    before the other. *)
Hypothesis comes_first_asym :
  forall a b : A, comes_first a b = true -> comes_first b a = false.

Lemma insert_stable_sorted (x : A) (l : list A) :
  Sorted (fun a b => comes_first b a = false) l ->
  Sorted (fun a b => comes_first b a = false) (insert_stable comes_first x l).
Proof.
  intros Hsorted. induction Hsorted as [| y rest Hrest IH Hhd]; cbn.
  - repeat constructor.
  - destruct (comes_first y x) eqn:Hyx.
    + constructor; [exact IH |].
      destruct Hhd as [| z rest' Hz]; cbn.
      * constructor. apply comes_first_asym, Hyx.
      * destruct (comes_first z x); constructor;
          [exact Hz | apply comes_first_asym, Hyx].
    + constructor; [constructor; assumption |].
      constructor. exact Hyx.
Qed.

Lemma py_sorted_sorted (l : list A) :
  Sorted (fun a b => comes_first b a = false) (py_sorted comes_first l).
Proof.
  induction l as [| x rest IH]; cbn; [constructor |].
  apply insert_stable_sorted, IH.
Qed.
End StableSort.

Section SortByKey.
Context {A : Type} (key : A -> R).

Lemma sorted_by_key_reverse_perm (l : list A) :
  sorted_by_key_reverse key l ≡ₚ l.
Proof. apply py_sorted_perm. Qed.

(** The result is in non-increasing order of the key. *)
Lemma sorted_by_key_reverse_sorted (l : list A) :
  StronglySorted (fun a b => key b <= key a) (sorted_by_key_reverse key l).
Proof.
  apply Sorted_StronglySorted.
  - intros a b c Hab Hbc. lra.
  - eapply Sorted_weaken; [| apply py_sorted_sorted].
    + intros a b Hab. cbn beta in Hab.
      apply bool_decide_eq_false in Hab. lra.
    + intros a b Hab. apply bool_decide_eq_true in Hab.
      apply bool_decide_eq_false. lra.
Qed.

(** Stability: selecting from the sorted list is sorting the selection. *)
Lemma insert_by_key_filter (P : A -> Prop) `{!forall a, Decision (P a)}
    (x : A) (l : list A) :
  StronglySorted (fun a b => key b <= key a) l ->
  filter P (insert_stable (fun y x => bool_decide (key y > key x)) x l)
  = if decide (P x)
    then insert_stable (fun y x => bool_decide (key y > key x)) x (filter P l)
    else filter P l.
Proof.
  intros Hsorted.
  induction Hsorted as [| y rest Hrest IH Hy]; cbn [insert_stable].
  - rewrite filter_cons, filter_nil. destruct (decide (P x)); reflexivity.
  - case_bool_decide as Hyx.
    + rewrite !(filter_cons _ y), IH.
      destruct (decide (P y)), (decide (P x)); cbn [insert_stable];
        try reflexivity.
      rewrite bool_decide_eq_true_2 by exact Hyx. reflexivity.
    + rewrite (filter_cons _ x). destruct (decide (P x)); [| reflexivity].
      rewrite insert_stable_front; [reflexivity |].
      apply Forall_forall. intros z Hz. apply bool_decide_eq_false.
      apply list_elem_of_filter in Hz as [_ Hz].
      apply elem_of_cons in Hz as [-> | Hz]; [lra |].
      rewrite Forall_forall in Hy. specialize (Hy z Hz). cbn beta in Hy. lra.
Qed.

Lemma sorted_by_key_reverse_filter (P : A -> Prop)
    `{!forall a, Decision (P a)} (l : list A) :
  filter P (sorted_by_key_reverse key l)
  = sorted_by_key_reverse key (filter P l).
Proof.
  induction l as [| x rest IH]; [reflexivity |].
  pose proof (sorted_by_key_reverse_sorted rest) as Hsorted.
  unfold sorted_by_key_reverse in *. rewrite py_sorted_cons.
  rewrite insert_by_key_filter by exact Hsorted.
  rewrite filter_cons.
  destruct (decide (P x)); [rewrite py_sorted_cons |]; rewrite IH; reflexivity.
Qed.

(** In a list sorted downwards the elements above a threshold are a
    prefix. *)
Lemma filter_above_prefix (threshold : R) (l : list A) :
  StronglySorted (fun a b => key b <= key a) l ->
  filter (fun a => key a > threshold) l
  = take (length (filter (fun a => key a > threshold) l)) l.
Proof.
  intros Hsorted. induction Hsorted as [| x rest Hrest IH Hx].
  - reflexivity.
  - rewrite filter_cons. destruct (decide (key x > threshold)) as [Hgt | Hle].
    + cbn. f_equal. exact IH.
    + assert (filter (fun a => key a > threshold) rest = []) as ->;
        [| reflexivity].
      apply filter_none. apply (Forall_impl _ _ _ Hx).
      intros a Ha. cbn beta in Ha. lra.
Qed.
End SortByKey.

Lemma sorted_by_key_reverse_map {A B : Type} (f : A -> B)
    (key_a : A -> R) (key_b : B -> R) (l : list A) :
  (forall a : A, key_b (f a) = key_a a) ->
  sorted_by_key_reverse key_b (map f l) = map f (sorted_by_key_reverse key_a l).
Proof.
  intros Hkey. unfold sorted_by_key_reverse.
  induction l as [| x rest IH]; [reflexivity |].
  cbn [map]. rewrite !py_sorted_cons, IH.
  generalize (py_sorted (fun y x0 => bool_decide (key_a y > key_a x0)) rest).
  intros sorted_rest. induction sorted_rest as [| y rest' IH']; [reflexivity |].
  cbn [map insert_stable]. rewrite !Hkey.
  case_bool_decide; cbn [map]; [rewrite IH' |]; reflexivity.
Qed.

(** ** validate_data *)

(** X9. validate_data returns True exactly when each of the fifteen
    required columns is among the columns of the frame; their order and
    any further column (such as 'Jun-Sep') make no difference. *)
Theorem validate_data_true_iff (columns : list string) :
  validate_data columns = true
  <-> forall col : string, col ∈ required_columns -> col ∈ columns.
Proof.
  unfold validate_data.
  destruct (filter (fun col => col ∉ columns) required_columns)
    as [| absent others] eqn:Hmissing.
  - split; [intros _ | reflexivity].
    intros col Hcol. destruct (decide (col ∈ columns)) as [Hin | Hout];
      [exact Hin |].
    exfalso. eapply filter_nil_not_elem_of; [exact Hmissing | exact Hout |].
    exact Hcol.
  - split; [discriminate |]. intros Hall. exfalso.
    assert (absent ∈ filter (fun col => col ∉ columns) required_columns)
      as Habsent by (rewrite Hmissing; left).
    apply list_elem_of_filter in Habsent as [Hout Hreq].
    apply Hout, Hall, Hreq.
Qed.

(** ** calculate_district_metrics *)

Lemma foldl_Rmax_spec (rest : list R) :
  forall x : R,
    x <= foldl Rmax x rest /\
    Forall (fun y => y <= foldl Rmax x rest) rest /\
    (foldl Rmax x rest = x \/ foldl Rmax x rest ∈ rest).
Proof.
  induction rest as [| y rest IH]; intros x; cbn.
  - repeat split; [lra | constructor | left; reflexivity].
  - destruct (IH (Rmax x y)) as (Hge & Hall & Hmem).
    pose proof (Rmax_l x y). pose proof (Rmax_r x y).
    repeat split; [lra | constructor; [lra | exact Hall] |].
    destruct Hmem as [Heq | Hin]; [| right; right; exact Hin].
    rewrite Heq. unfold Rmax. destruct (Rle_dec x y); [right; left | left];
      reflexivity.
Qed.

Lemma foldl_Rmin_spec (rest : list R) :
  forall x : R,
    foldl Rmin x rest <= x /\
    Forall (fun y => foldl Rmin x rest <= y) rest /\
    (foldl Rmin x rest = x \/ foldl Rmin x rest ∈ rest).
Proof.
  induction rest as [| y rest IH]; intros x; cbn.
  - repeat split; [lra | constructor | left; reflexivity].
  - destruct (IH (Rmin x y)) as (Hle & Hall & Hmem).
    pose proof (Rmin_l x y). pose proof (Rmin_r x y).
    repeat split; [lra | constructor; [lra | exact Hall] |].
    destruct Hmem as [Heq | Hin]; [| right; right; exact Hin].
    rewrite Heq. unfold Rmin. destruct (Rle_dec x y); [left | right; left];
      reflexivity.
Qed.

(** [np.max] and [np.min] return an element that bounds all the others. *)
Lemma np_max_spec (xs : list R) :
  xs <> [] ->
  exists m : R, np_max xs = Some m /\ m ∈ xs /\ Forall (fun x => x <= m) xs.
Proof.
  destruct xs as [| x rest]; [congruence | intros _].
  destruct (foldl_Rmax_spec rest x) as (Hge & Hall & Hmem).
  exists (foldl Rmax x rest). split; [reflexivity |]. split.
  - destruct Hmem as [-> | Hin]; [left | right; exact Hin].
  - constructor; assumption.
Qed.

Lemma np_min_spec (xs : list R) :
  xs <> [] ->
  exists m : R, np_min xs = Some m /\ m ∈ xs /\ Forall (fun x => m <= x) xs.
Proof.
  destruct xs as [| x rest]; [congruence | intros _].
  destruct (foldl_Rmin_spec rest x) as (Hle & Hall & Hmem).
  exists (foldl Rmin x rest). split; [reflexivity |]. split.
  - destruct Hmem as [-> | Hin]; [left | right; exact Hin].
  - constructor; assumption.
Qed.

Lemma np_sum_bounds (lo hi : R) (xs : list R) :
  Forall (fun x => lo <= x <= hi) xs ->
  INR (length xs) * lo <= np_sum xs <= INR (length xs) * hi.
Proof.
  intros Hxs. induction Hxs as [| x rest Hx _ IH].
  - cbn. lra.
  - cbn [length np_sum foldr]. rewrite S_INR. fold (np_sum rest). lra.
Qed.

Lemma INR_length_pos {A : Type} (xs : list A) : xs <> [] -> 0 < INR (length xs).
Proof.
  intros Hne. destruct xs; [congruence |]. cbn [length].
  rewrite S_INR. pose proof (pos_INR (length xs)). lra.
Qed.

(** The mean of a non-empty sequence lies between its bounds. *)
Lemma np_mean_bounds (lo hi : R) (xs : list R) :
  xs <> [] -> Forall (fun x => lo <= x <= hi) xs -> lo <= np_mean xs <= hi.
Proof.
  intros Hne Hxs. pose proof (INR_length_pos xs Hne) as Hn.
  pose proof (np_sum_bounds lo hi xs Hxs) as [Hlo Hhi].
  unfold np_mean. split.
  - apply (Rmult_le_reg_r (INR (length xs))); [exact Hn |].
    unfold Rdiv. rewrite Rmult_assoc, Rinv_l by lra. lra.
  - apply (Rmult_le_reg_r (INR (length xs))); [exact Hn |].
    unfold Rdiv. rewrite Rmult_assoc, Rinv_l by lra. lra.
Qed.

Section MaxByKey.
Context {A : Type} (key : A -> R).

(** [max] with a key returns the first element that no other exceeds. *)
Lemma max_from_split (xs : list A) :
  forall (pre : list A) (best : A) (mid : list A),
    Forall (fun a => key a < key best) pre ->
    Forall (fun a => key a <= key best) mid ->
    exists before after : list A,
      pre ++ best :: mid ++ xs = before ++ max_from key best xs :: after /\
      Forall (fun a => key a < key (max_from key best xs)) before /\
      Forall (fun a => key a <= key (max_from key best xs)) after.
Proof.
  induction xs as [| x rest IH]; intros pre best mid Hpre Hmid.
  - exists pre, mid. rewrite app_nil_r. auto.
  - cbn [max_from]. destruct (decide (key x > key best)) as [Hgt | Hle].
    + destruct (IH (pre ++ best :: mid) x []) as (before & after & Heq & H1 & H2).
      * apply Forall_app. split.
        -- apply (Forall_impl _ _ _ Hpre). intros a Ha. cbn beta in Ha. lra.
        -- constructor; [lra |].
           apply (Forall_impl _ _ _ Hmid). intros a Ha. cbn beta in Ha. lra.
      * constructor.
      * exists before, after. split; [| auto].
        rewrite <- Heq, <- app_assoc. reflexivity.
    + destruct (IH pre best (mid ++ [x])) as (before & after & Heq & H1 & H2).
      * exact Hpre.
      * apply Forall_app. split; [exact Hmid |]. constructor; [lra | constructor].
      * exists before, after. split; [| auto].
        rewrite <- Heq, <- app_assoc. reflexivity.
Qed.

Lemma foldl_Rmax_max_from (xs : list A) :
  forall best : A,
    foldl Rmax (key best) (map key xs) = key (max_from key best xs).
Proof.
  induction xs as [| x rest IH]; intros best; [reflexivity |].
  cbn [map foldl max_from]. rewrite <- IH. f_equal.
  unfold Rmax. destruct (Rle_dec (key best) (key x)), (decide (key x > key best));
    lra.
Qed.
End MaxByKey.

(** What the method returns for a non-empty ['monthly'] dict. *)
Lemma calculate_district_metrics_some (d : DistrictData)
    (item : string * R) (rest : list (string * R)) :
  monthly d = item :: rest ->
  calculate_district_metrics d
  = Some {| avg_monthly := np_mean (map snd (monthly d));
            max_monthly := foldl Rmax (snd item) (map snd rest);
            min_monthly := foldl Rmin (snd item) (map snd rest);
            std_monthly := np_std (map snd (monthly d));
            monsoon_percentage :=
              if decide (annual d > 0) then monsoon d / annual d * 100 else 0;
            peak_month := fst (max_from snd item rest) |}.
Proof.
  intros Hmonthly. unfold calculate_district_metrics. rewrite Hmonthly.
  cbn [map np_max np_min py_max_key mbind option_bind].
  destruct (decide (annual d > 0)) as [Hpos | Hnonpos].
  - rewrite float_truediv_nonzero by lra. reflexivity.
  - reflexivity.
Qed.

(** X10. calculate_district_metrics raises exactly when the 'monthly' dict
    is empty (np.max of an empty sequence); in particular an annual total
    of 0 raises nothing. *)
Theorem calculate_district_metrics_none_iff (d : DistrictData) :
  calculate_district_metrics d = None <-> monthly d = [].
Proof.
  destruct (monthly d) as [| item rest] eqn:Hmonthly.
  - split; [reflexivity | intros _].
    unfold calculate_district_metrics. rewrite Hmonthly. reflexivity.
  - rewrite (calculate_district_metrics_some d item rest Hmonthly).
    split; discriminate.
Qed.

(** X11. The monsoon percentage is 0 when the annual total is not
    positive, monsoon / annual * 100 otherwise, and between 0 and 100
    whenever the monsoon total lies between 0 and the annual total. *)
Theorem monsoon_percentage_guarded (d : DistrictData) :
  monthly d <> [] ->
  exists m : Metrics,
    calculate_district_metrics d = Some m /\
    (annual d <= 0 -> monsoon_percentage m = 0) /\
    (annual d > 0 -> monsoon_percentage m = monsoon d / annual d * 100) /\
    (0 <= monsoon d <= annual d -> 0 <= monsoon_percentage m <= 100).
Proof.
  intros Hne. destruct (monthly d) as [| item rest] eqn:Hmonthly; [congruence |].
  eexists. split; [apply (calculate_district_metrics_some d item rest Hmonthly) |].
  cbn [monsoon_percentage].
  destruct (decide (annual d > 0)) as [Hpos | Hnonpos]; repeat split;
    intros; try lra.
  - apply Rmult_le_pos; [| lra].
    apply Rmult_le_pos; [lra |]. left. apply Rinv_0_lt_compat. lra.
  - replace 100 with (annual d / annual d * 100) at 2 by (field; lra).
    apply Rmult_le_compat_r; [lra |].
    unfold Rdiv. apply Rmult_le_compat_r; [| lra].
    left. apply Rinv_0_lt_compat. lra.
Qed.

Lemma monsoon_percentage_guarded_witness :
  exists m : Metrics,
    calculate_district_metrics idukki = Some m /\
    (annual idukki <= 0 -> monsoon_percentage m = 0) /\
    (annual idukki > 0 ->
     monsoon_percentage m = monsoon idukki / annual idukki * 100) /\
    (0 <= monsoon idukki <= annual idukki -> 0 <= monsoon_percentage m <= 100).
Proof. apply (monsoon_percentage_guarded idukki). discriminate. Defined.

(** X12. For a non-empty 'monthly' dict every monthly value lies between
    min_monthly and max_monthly, and so does avg_monthly. *)
Theorem monthly_extremes_bound_average (d : DistrictData) :
  monthly d <> [] ->
  exists m : Metrics,
    calculate_district_metrics d = Some m /\
    Forall (fun item => min_monthly m <= snd item <= max_monthly m) (monthly d) /\
    min_monthly m <= avg_monthly m <= max_monthly m.
Proof.
  intros Hne. destruct (monthly d) as [| item rest] eqn:Hmonthly; [congruence |].
  eexists. split; [apply (calculate_district_metrics_some d item rest Hmonthly) |].
  cbn [min_monthly max_monthly avg_monthly]. rewrite Hmonthly.
  destruct (foldl_Rmax_spec (map snd rest) (snd item)) as (Hmax1 & Hmax2 & _).
  destruct (foldl_Rmin_spec (map snd rest) (snd item)) as (Hmin1 & Hmin2 & _).
  assert (Forall (fun x => foldl Rmin (snd item) (map snd rest) <= x
                           <= foldl Rmax (snd item) (map snd rest))
                 (map snd (item :: rest))) as Hall.
  { cbn [map]. constructor; [lra |].
    rewrite Forall_forall in Hmax2, Hmin2. apply Forall_forall.
    intros x Hx. split; [apply Hmin2 | apply Hmax2]; exact Hx. }
  split.
  - rewrite Forall_forall in Hall. apply Forall_forall. intros it Hit.
    apply Hall. apply list_elem_of_In, in_map, list_elem_of_In, Hit.
  - apply np_mean_bounds; [discriminate | exact Hall].
Qed.

Lemma monthly_extremes_bound_average_witness :
  exists m : Metrics,
    calculate_district_metrics idukki = Some m /\
    Forall (fun item => min_monthly m <= snd item <= max_monthly m)
           (monthly idukki) /\
    min_monthly m <= avg_monthly m <= max_monthly m.
Proof. apply (monthly_extremes_bound_average idukki). discriminate. Defined.

(** X13. peak_month is the first month of the 'monthly' dict whose
    rainfall is max_monthly: every month before it has strictly less, and
    no month after it has more. *)
Theorem peak_month_first_maximum (d : DistrictData) :
  monthly d <> [] ->
  exists (m : Metrics) (before after : list (string * R)),
    calculate_district_metrics d = Some m /\
    monthly d = before ++ (peak_month m, max_monthly m) :: after /\
    Forall (fun item => snd item < max_monthly m) before /\
    Forall (fun item => snd item <= max_monthly m) after.
Proof.
  intros Hne. destruct (monthly d) as [| item rest] eqn:Hmonthly; [congruence |].
  destruct (max_from_split snd rest [] item [])
    as (before & after & Heq & Hbefore & Hafter); [constructor .. |].
  eexists. exists before, after.
  split; [apply (calculate_district_metrics_some d item rest Hmonthly) |].
  cbn [peak_month max_monthly]. rewrite foldl_Rmax_max_from.
  split; [| split; assumption].
  cbn [app] in Heq. rewrite Heq. f_equal. f_equal.
  destruct (max_from snd item rest); reflexivity.
Qed.

Lemma peak_month_first_maximum_witness :
  exists (m : Metrics) (before after : list (string * R)),
    calculate_district_metrics wayanad = Some m /\
    monthly wayanad = before ++ (peak_month m, max_monthly m) :: after /\
    Forall (fun item => snd item < max_monthly m) before /\
    Forall (fun item => snd item <= max_monthly m) after.
Proof. apply (peak_month_first_maximum wayanad). discriminate. Defined.

Lemma np_sum_nonneg (ys : list R) :
  Forall (fun y => 0 <= y) ys -> 0 <= np_sum ys.
Proof.
  intros Hys. induction Hys as [| y rest Hy _ IH]; cbn; [lra |].
  fold (np_sum rest). lra.
Qed.

Lemma np_sum_zero (ys : list R) :
  Forall (fun y => 0 <= y) ys -> np_sum ys = 0 -> Forall (fun y => y = 0) ys.
Proof.
  intros Hys. induction Hys as [| y rest Hy Hrest IH]; cbn; [constructor |].
  fold (np_sum rest). intros Hsum.
  pose proof (np_sum_nonneg rest Hrest).
  constructor; [lra | apply IH; lra].
Qed.

Lemma np_sum_all_zero (ys : list R) :
  Forall (fun y => y = 0) ys -> np_sum ys = 0.
Proof.
  intros Hys. induction Hys as [| y rest Hy _ IH]; cbn; [reflexivity |].
  fold (np_sum rest). lra.
Qed.

(** The standard deviation of a non-empty sequence is 0 exactly when all
    its values equal the mean. *)
Lemma np_std_zero_iff (xs : list R) :
  xs <> [] ->
  0 <= np_std xs /\
  (np_std xs = 0 <-> Forall (fun x => x = np_mean xs) xs).
Proof.
  intros Hne. unfold np_std. set (mu := np_mean xs).
  set (squares := map (fun x => (x - mu) ^ 2) xs).
  assert (Forall (fun y => 0 <= y) squares) as Hsq.
  { apply Forall_forall. intros y Hy.
    apply list_elem_of_In, in_map_iff in Hy. destruct Hy as (x & <- & _).
    apply pow2_ge_0. }
  assert (squares <> []) as Hsne by (destruct xs; [congruence | discriminate]).
  pose proof (INR_length_pos squares Hsne) as Hn.
  pose proof (np_sum_nonneg squares Hsq) as Hsum.
  assert (0 <= np_mean squares) as Hmean.
  { unfold np_mean. apply Rmult_le_pos; [exact Hsum |].
    left. apply Rinv_0_lt_compat, Hn. }
  split; [apply sqrt_pos |]. split.
  - intros Hzero. apply sqrt_eq_0 in Hzero; [| exact Hmean].
    assert (np_sum squares = 0) as Hsum0.
    { unfold np_mean in Hzero.
      apply (Rmult_eq_reg_r (/ INR (length squares)));
        [| apply Rinv_neq_0_compat; lra].
      rewrite Rmult_0_l. exact Hzero. }
    pose proof (np_sum_zero squares Hsq Hsum0) as Hall.
    rewrite Forall_forall in Hall. apply Forall_forall. intros x Hx.
    assert ((x - mu) ^ 2 = 0) as Hx0.
    { apply Hall. apply list_elem_of_In. apply in_map_iff.
      exists x. split; [reflexivity | apply list_elem_of_In, Hx]. }
    cbn [pow] in Hx0.
    apply Rmult_integral in Hx0 as [Hx0 | Hx0]; [lra |].
    apply Rmult_integral in Hx0 as [Hx0 | Hx0]; lra.
  - intros Hall. replace (np_mean squares) with 0; [apply sqrt_0 |].
    symmetry. unfold np_mean. rewrite np_sum_all_zero; [lra |].
    apply Forall_forall. intros y Hy.
    apply list_elem_of_In, in_map_iff in Hy. destruct Hy as (x & <- & Hx).
    rewrite Forall_forall in Hall.
    rewrite (Hall x) by (apply list_elem_of_In, Hx). fold mu. lra.
Qed.

(** X14. std_monthly is never negative, and it is 0 exactly when every
    month has the same rainfall, namely avg_monthly. *)
Theorem std_monthly_zero_iff_uniform (d : DistrictData) :
  monthly d <> [] ->
  exists m : Metrics,
    calculate_district_metrics d = Some m /\
    0 <= std_monthly m /\
    (std_monthly m = 0
     <-> Forall (fun item => snd item = avg_monthly m) (monthly d)).
Proof.
  intros Hne. destruct (monthly d) as [| item rest] eqn:Hmonthly; [congruence |].
  eexists. split; [apply (calculate_district_metrics_some d item rest Hmonthly) |].
  cbn [std_monthly avg_monthly]. rewrite Hmonthly.
  destruct (np_std_zero_iff (map snd (item :: rest))) as [Hpos Hiff];
    [discriminate |].
  split; [exact Hpos |]. rewrite Hiff.
  rewrite !Forall_forall. split.
  - intros Hall it Hit. apply Hall.
    apply list_elem_of_In, in_map, list_elem_of_In, Hit.
  - intros Hall x Hx. apply list_elem_of_In, in_map_iff in Hx.
    destruct Hx as (it & <- & Hit). apply Hall, list_elem_of_In, Hit.
Qed.

Lemma std_monthly_zero_iff_uniform_witness :
  exists m : Metrics,
    calculate_district_metrics jaisalmer = Some m /\
    0 <= std_monthly m /\
    (std_monthly m = 0
     <-> Forall (fun item => snd item = avg_monthly m) (monthly jaisalmer)).
Proof. apply (std_monthly_zero_iff_uniform jaisalmer). discriminate. Defined.

(** ** get_top_districts and identify_high_risk_districts *)

Lemma length_slice_to {A : Type} (n : Z) (xs : list A) :
  Z.of_nat (length (slice_to n xs))
  = if decide (0 <= n)%Z then Z.min n (Z.of_nat (length xs))
    else Z.max 0 (Z.of_nat (length xs) + n).
Proof.
  unfold slice_to. destruct (decide (0 <= n)%Z); rewrite length_take; lia.
Qed.

(** X15. get_top_districts(n) returns min(n, number of districts) entries
    for n >= 0.  A negative n is not rejected: by the slice [:n] it drops
    the last -n districts of the ranking, leaving max(0, number + n). *)
Theorem get_top_districts_length (processed_data : list DistrictData) (n : Z) :
  Z.of_nat (length (get_top_districts processed_data n))
  = if decide (0 <= n)%Z then Z.min n (Z.of_nat (length processed_data))
    else Z.max 0 (Z.of_nat (length processed_data) + n).
Proof.
  unfold get_top_districts. rewrite length_map, length_slice_to.
  unfold sorted_by_key_reverse. rewrite length_py_sorted. reflexivity.
Qed.

(** X16. get_top_districts ranks before it cuts: its entries are those of
    a list [chosen] which, followed by the districts left out, is a
    rearrangement of processed_data in non-increasing order of annual
    rainfall.  So the entries come in that order and no district left out
    has more rain than a returned one. *)
Theorem get_top_districts_ranked (processed_data : list DistrictData) (n : Z) :
  exists chosen left_out : list DistrictData,
    get_top_districts processed_data n
    = map (fun d => mkTopDistrict (district d) (state d) (annual d)) chosen /\
    chosen ++ left_out ≡ₚ processed_data /\
    StronglySorted (fun a b => annual b <= annual a) (chosen ++ left_out).
Proof.
  unfold get_top_districts, slice_to.
  set (ranking := sorted_by_key_reverse annual processed_data).
  assert (forall k : nat,
            take k ranking ++ drop k ranking ≡ₚ processed_data /\
            StronglySorted (fun a b => annual b <= annual a)
                           (take k ranking ++ drop k ranking)) as Hcut.
  { intros k. rewrite take_drop. split.
    - apply sorted_by_key_reverse_perm.
    - apply sorted_by_key_reverse_sorted. }
  destruct (decide (0 <= n)%Z).
  - exists (take (Z.to_nat n) ranking), (drop (Z.to_nat n) ranking).
    split; [reflexivity | apply Hcut].
  - exists (take (length ranking - Z.to_nat (- n)) ranking),
           (drop (length ranking - Z.to_nat (- n)) ranking).
    split; [reflexivity | apply Hcut].
Qed.

(** X17. identify_high_risk_districts returns, in non-increasing order of
    annual rainfall, exactly the districts whose annual rainfall is
    strictly above the threshold, each as often as it occurs in
    processed_data; a district at the threshold is left out. *)
Theorem identify_high_risk_districts_exact
    (processed_data : list DistrictData) (threshold : R) :
  identify_high_risk_districts processed_data threshold
  ≡ₚ map (fun d => mkHighRiskDistrict (district d) (state d) (annual d)
                                      (monsoon d))
         (filter (fun d => annual d > threshold) processed_data) /\
  Forall (fun entry => risk_annual_rainfall entry > threshold)
         (identify_high_risk_districts processed_data threshold) /\
  StronglySorted
    (fun a b => risk_annual_rainfall b <= risk_annual_rainfall a)
    (identify_high_risk_districts processed_data threshold).
Proof.
  unfold identify_high_risk_districts.
  split; [apply sorted_by_key_reverse_perm |].
  split; [| apply sorted_by_key_reverse_sorted].
  rewrite sorted_by_key_reverse_perm.
  apply Forall_forall. intros entry Hentry.
  apply list_elem_of_In, in_map_iff in Hentry.
  destruct Hentry as (d & <- & Hd).
  apply list_elem_of_In, list_elem_of_filter in Hd as [Hd _]. exact Hd.
Qed.

(** X18. The two rankings agree: as long as n does not exceed the number
    of high-risk districts, get_top_districts(n) is the first n entries of
    identify_high_risk_districts(threshold) without their
    'monsoon_rainfall', for every threshold. *)
Theorem top_districts_prefix_of_high_risk
    (processed_data : list DistrictData) (threshold : R) (n : nat) :
  (n <= length (identify_high_risk_districts processed_data threshold))%nat ->
  get_top_districts processed_data (Z.of_nat n)
  = map (fun entry => mkTopDistrict (risk_district entry) (risk_state entry)
                                    (risk_annual_rainfall entry))
        (take n (identify_high_risk_districts processed_data threshold)).
Proof.
  unfold identify_high_risk_districts, get_top_districts, slice_to.
  rewrite decide_True by lia. rewrite Nat2Z.id.
  rewrite (sorted_by_key_reverse_map _ annual risk_annual_rainfall)
    by reflexivity.
  rewrite <- sorted_by_key_reverse_filter.
  set (ranking := sorted_by_key_reverse annual processed_data).
  rewrite (filter_above_prefix annual threshold ranking)
    by apply sorted_by_key_reverse_sorted.
  rewrite length_map, length_take. intros Hn.
  rewrite firstn_map, map_map.
  cbn [risk_district risk_state risk_annual_rainfall].
  f_equal. rewrite take_take. f_equal. lia.
Qed.

Lemma top_districts_prefix_of_high_risk_witness :
  get_top_districts sample_data (Z.of_nat 2)
  = map (fun entry => mkTopDistrict (risk_district entry) (risk_state entry)
                                    (risk_annual_rainfall entry))
        (take 2 (identify_high_risk_districts sample_data 3000)).
Proof.
  apply (top_districts_prefix_of_high_risk sample_data 3000 2).
  unfold identify_high_risk_districts, sorted_by_key_reverse.
  rewrite length_py_sorted, length_map.
  unfold sample_data. rewrite !filter_cons.
  destruct (decide (annual idukki > 3000)) as [_ | Hno];
    [| exfalso; apply Hno; cbn; lra].
  destruct (decide (annual jaisalmer > 3000)) as [Hyes | _];
    [exfalso; cbn in Hyes; lra |].
  destruct (decide (annual wayanad > 3000)) as [_ | Hno];
    [| exfalso; apply Hno; cbn; lra].
  cbn. lia.
Defined.

(** ** generate_summary_report *)

Lemma statistics_some (values : list R) :
  values <> [] ->
  exists lowest highest : R,
    statistics values
    = Some {| stat_mean := np_mean values;
              stat_median := np_median values;
              stat_min := lowest;
              stat_max := highest;
              stat_std := np_std values |} /\
    Forall (fun x => lowest <= x <= highest) values.
Proof.
  intros Hne.
  destruct (np_min_spec values Hne) as (lo & Hlo & _ & Hlo_all).
  destruct (np_max_spec values Hne) as (hi & Hhi & _ & Hhi_all).
  exists lo, hi. unfold statistics. rewrite Hlo, Hhi. split; [reflexivity |].
  rewrite Forall_forall in Hlo_all, Hhi_all. apply Forall_forall.
  intros x Hx. split; [apply Hlo_all | apply Hhi_all]; exact Hx.
Qed.

(** The median of a non-empty sequence lies between its bounds. *)
Lemma np_median_bounds (lo hi : R) (xs : list R) :
  xs <> [] -> Forall (fun x => lo <= x <= hi) xs -> lo <= np_median xs <= hi.
Proof.
  intros Hne Hxs. unfold np_median.
  set (ordered := py_sorted (fun y x => bool_decide (y < x)) xs).
  assert (Forall (fun x => lo <= x <= hi) ordered) as Hordered
    by (unfold ordered; rewrite py_sorted_perm; exact Hxs).
  assert (0 < length ordered)%nat as Hlen.
  { unfold ordered. rewrite length_py_sorted.
    destruct xs; [congruence | cbn; lia]. }
  assert (forall k : nat, (k < length ordered)%nat ->
            lo <= nth k ordered 0 <= hi) as Hnth.
  { intros k Hk. rewrite Forall_forall in Hordered. apply Hordered.
    apply list_elem_of_In, nth_In, Hk. }
  pose proof (Nat.div_lt (length ordered) 2 Hlen ltac:(lia)) as Hhalf.
  destruct (Nat.even (length ordered)).
  - pose proof (Hnth (length ordered / 2 - 1)%nat ltac:(lia)).
    pose proof (Hnth (length ordered / 2)%nat Hhalf). lra.
  - apply Hnth, Hhalf.
Qed.

(** X19. generate_summary_report raises exactly when processed_data is
    empty (np.min of an empty sequence); for one district or more it
    returns a report. *)
Theorem generate_summary_report_none_iff (processed_data : list DistrictData) :
  generate_summary_report processed_data = None <-> processed_data = [].
Proof.
  destruct processed_data as [| d rest]; [split; reflexivity |].
  split; [| discriminate]. unfold generate_summary_report.
  destruct (statistics_some (map annual (d :: rest))) as (? & ? & -> & _);
    [discriminate |].
  destruct (statistics_some (map monsoon (d :: rest))) as (? & ? & -> & _);
    [discriminate |].
  discriminate.
Qed.

Lemma generate_summary_report_some (processed_data : list DistrictData) :
  processed_data <> [] ->
  exists annual_block monsoon_block : Statistics,
    statistics (map annual processed_data) = Some annual_block /\
    statistics (map monsoon processed_data) = Some monsoon_block /\
    generate_summary_report processed_data
    = Some {| total_districts := Z.of_nat (length processed_data);
              total_states :=
                Z.of_nat (length (elements (list_to_set
                            (map state processed_data) : gset string)));
              states :=
                py_sorted String.ltb
                  (elements (list_to_set (map state processed_data)
                             : gset string));
              annual_statistics := annual_block;
              monsoon_statistics := monsoon_block;
              top_rainfall_districts := get_top_districts processed_data 5;
              high_risk_districts :=
                identify_high_risk_districts processed_data 3000 |}.
Proof.
  intros Hne.
  destruct (statistics_some (map annual processed_data))
    as (alo & ahi & Ha & _); [destruct processed_data; [congruence | discriminate] |].
  destruct (statistics_some (map monsoon processed_data))
    as (mlo & mhi & Hm & _); [destruct processed_data; [congruence | discriminate] |].
  eexists. eexists. split; [exact Ha |]. split; [exact Hm |].
  unfold generate_summary_report. rewrite Ha, Hm. reflexivity.
Qed.

Lemma ltb_asym (a b : string) : String.ltb a b = true -> String.ltb b a = false.
Proof.
  unfold String.ltb. rewrite (String.compare_antisym b a).
  destruct (String.compare a b); cbn; congruence.
Qed.

Lemma ltb_connected (a b : string) :
  a <> b -> String.ltb b a = false -> String.ltb a b = true.
Proof.
  intros Hne Hba. unfold String.ltb in *.
  rewrite (String.compare_antisym b a) in Hba.
  destruct (String.compare a b) eqn:Hcmp; cbn in Hba;
    [| reflexivity | discriminate].
  apply String.compare_eq_iff in Hcmp. congruence.
Qed.

(** A duplicate-free list of names in sorted order is strictly
    ascending. *)
Lemma sorted_names_strict (names : list string) :
  NoDup names ->
  Sorted (fun a b => String.ltb b a = false) names ->
  Sorted (fun a b => String.ltb a b = true) names.
Proof.
  intros Hnodup Hsorted.
  induction Hsorted as [| a rest Hrest IH Hhd]; constructor.
  - apply IH. apply NoDup_cons in Hnodup as [_ Hnodup]. exact Hnodup.
  - destruct Hhd as [| b rest' Hab]; constructor.
    apply ltb_connected; [| exact Hab].
    apply NoDup_cons in Hnodup as [Hnotin _].
    intros ->. apply Hnotin. left.
Qed.

(** X20. In the report, 'states' lists each state of processed_data once,
    in strictly ascending order; 'total_states' is the length of that
    list, 'total_districts' the number of records, and
    1 <= total_states <= total_districts. *)
Theorem report_states_distinct_sorted (processed_data : list DistrictData) :
  processed_data <> [] ->
  exists r : Report,
    generate_summary_report processed_data = Some r /\
    total_districts r = Z.of_nat (length processed_data) /\
    total_states r = Z.of_nat (length (states r)) /\
    (1 <= total_states r <= total_districts r)%Z /\
    (forall name : string,
       name ∈ states r <-> exists d, d ∈ processed_data /\ state d = name) /\
    NoDup (states r) /\
    Sorted (fun a b => String.ltb a b = true) (states r).
Proof.
  intros Hne.
  destruct (generate_summary_report_some processed_data Hne)
    as (ablock & mblock & _ & _ & Hreport).
  eexists. split; [exact Hreport |].
  cbn [total_districts total_states states].
  set (distinct := elements (list_to_set (map state processed_data)
                             : gset string)).
  assert (forall name : string,
            name ∈ distinct <-> exists d, d ∈ processed_data /\ state d = name)
    as Hmem.
  { intros name. unfold distinct.
    rewrite elem_of_elements, elem_of_list_to_set, list_elem_of_In, in_map_iff.
    split; intros (d & H1 & H2).
    - exists d. split; [apply list_elem_of_In, H2 | exact H1].
    - exists d. split; [exact H2 | apply list_elem_of_In, H1]. }
  assert (NoDup distinct) as Hnodup by apply NoDup_elements.
  split; [reflexivity |].
  split; [rewrite length_py_sorted; reflexivity |].
  split; [| split; [| split]].
  - split.
    + destruct processed_data as [| d rest]; [congruence |].
      assert (state d ∈ distinct) as Hin
        by (apply Hmem; exists d; split; [left | reflexivity]).
      destruct distinct; [inversion Hin | cbn; lia].
    + apply inj_le.
      rewrite <- (length_map state processed_data).
      apply submseteq_length, NoDup_submseteq; [exact Hnodup |].
      intros name Hname. apply Hmem in Hname as (d & Hd & <-).
      apply list_elem_of_In, in_map, list_elem_of_In, Hd.
  - intros name. rewrite py_sorted_perm. apply Hmem.
  - rewrite py_sorted_perm. exact Hnodup.
  - apply sorted_names_strict.
    + rewrite py_sorted_perm. exact Hnodup.
    + apply py_sorted_sorted. apply ltb_asym.
Qed.

Lemma report_states_distinct_sorted_witness :
  exists r : Report,
    generate_summary_report sample_data = Some r /\
    total_districts r = Z.of_nat (length sample_data) /\
    total_states r = Z.of_nat (length (states r)) /\
    (1 <= total_states r <= total_districts r)%Z /\
    (forall name : string,
       name ∈ states r <-> exists d, d ∈ sample_data /\ state d = name) /\
    NoDup (states r) /\
    Sorted (fun a b => String.ltb a b = true) (states r).
Proof. apply (report_states_distinct_sorted sample_data). discriminate. Defined.

(** X21. In both blocks of 'rainfall_statistics' the mean and the median
    lie between 'min' and 'max', which bound the figure of every district,
    and 'std' is not negative. *)
Theorem report_statistics_ordered (processed_data : list DistrictData) :
  processed_data <> [] ->
  exists r : Report,
    generate_summary_report processed_data = Some r /\
    Forall (fun d => stat_min (annual_statistics r) <= annual d
                     <= stat_max (annual_statistics r)) processed_data /\
    Forall (fun d => stat_min (monsoon_statistics r) <= monsoon d
                     <= stat_max (monsoon_statistics r)) processed_data /\
    (forall block : Statistics,
       block = annual_statistics r \/ block = monsoon_statistics r ->
       stat_min block <= stat_mean block <= stat_max block /\
       stat_min block <= stat_median block <= stat_max block /\
       0 <= stat_std block).
Proof.
  intros Hne.
  assert (forall (field : DistrictData -> R),
            exists block : Statistics,
              statistics (map field processed_data) = Some block /\
              Forall (fun d => stat_min block <= field d <= stat_max block)
                     processed_data /\
              stat_min block <= stat_mean block <= stat_max block /\
              stat_min block <= stat_median block <= stat_max block /\
              0 <= stat_std block) as Hblock.
  { intros field.
    assert (map field processed_data <> []) as Hvalues
      by (destruct processed_data; [congruence | discriminate]).
    destruct (statistics_some _ Hvalues) as (lo & hi & Hstat & Hall).
    eexists. split; [exact Hstat |].
    cbn [stat_min stat_max stat_mean stat_median stat_std].
    split; [| split; [| split]].
    - rewrite Forall_forall in Hall. apply Forall_forall. intros d Hd.
      apply Hall. apply list_elem_of_In, in_map, list_elem_of_In, Hd.
    - apply np_mean_bounds; assumption.
    - apply np_median_bounds; assumption.
    - unfold np_std. apply sqrt_pos. }
  destruct (Hblock annual) as (ablock & Ha & Ha_all & Ha_rest).
  destruct (Hblock monsoon) as (mblock & Hm & Hm_all & Hm_rest).
  eexists. split.
  { unfold generate_summary_report. rewrite Ha, Hm. reflexivity. }
  cbn [annual_statistics monsoon_statistics].
  split; [exact Ha_all |]. split; [exact Hm_all |].
  intros block [-> | ->]; assumption.
Qed.

Lemma report_statistics_ordered_witness :
  exists r : Report,
    generate_summary_report sample_data = Some r /\
    Forall (fun d => stat_min (annual_statistics r) <= annual d
                     <= stat_max (annual_statistics r)) sample_data /\
    Forall (fun d => stat_min (monsoon_statistics r) <= monsoon d
                     <= stat_max (monsoon_statistics r)) sample_data /\
    (forall block : Statistics,
       block = annual_statistics r \/ block = monsoon_statistics r ->
       stat_min block <= stat_mean block <= stat_max block /\
       stat_min block <= stat_median block <= stat_max block /\
       0 <= stat_std block).
Proof. apply (report_statistics_ordered sample_data). discriminate. Defined.
